(** * Produce ripeness predictor: interaction controller and AI gateway

    A shallow embedding of the React controller ([App]) and of the Gemini
    service module ([identifyProduce], [getRipenessPrediction]).

    - JavaScript strings are [string]s.  [toLowerCase] and [trim] are exact
      on ASCII text; the theorems whose statement depends on the letter case
      or on the white space of a text from outside assume that the text and
      the labels of the catalog are ASCII.
    - A JavaScript number that reaches the controller is a finite double or
      an infinity; a finite double is embedded in [Q] by its exact value, so
      that comparisons and the rounding of [Number.prototype.toFixed] are
      exact.
    - [async] handlers are programs in a state-and-exception monad [M].  The
      store holds the React state (the result of the setter calls made so
      far) and the log of the requests sent to the model.
    - The browser and the remote model are the environment of the program:
      [fileToBase64], [generateContent] and [JSON_parse] are variables of the
      section, as is the catalog [PRODUCE] of [constants.ts]. *)

From Stdlib Require Import List String Ascii ZArith QArith Qabs Lia Lqa Bool DecimalString.
Import ListNotations.
Local Open Scope string_scope.

(** ** JavaScript strings *)

Module JsString.

Definition lower_ascii (c : ascii) : ascii :=
  let n := nat_of_ascii c in
  if ((65 <=? n) && (n <=? 90))%nat then ascii_of_nat (n + 32) else c.

(** [s.toLowerCase()], exact on ASCII text: the letters A to Z are folded
    and every other character, those from 128 on included, is left as it
    is. *)
Fixpoint toLowerCase (s : string) : string :=
  match s with
  | EmptyString => EmptyString
  | String c s' => String (lower_ascii c) (toLowerCase s')
  end.

(** White space of [String.prototype.trim] in the ASCII range: TAB, LF, VT,
    FF, CR and SP.  The white space beyond ASCII (U+00A0, U+FEFF, the
    separators) is not covered: [trim] is exact on ASCII text. *)
Definition is_space (c : ascii) : bool :=
  let n := nat_of_ascii c in
  (((9 <=? n) && (n <=? 13)) || (n =? 32))%nat.

Fixpoint trimStart (s : string) : string :=
  match s with
  | EmptyString => EmptyString
  | String c s' => if is_space c then trimStart s' else s
  end.

Fixpoint rev (s : string) : string :=
  match s with
  | EmptyString => EmptyString
  | String c s' => rev s' ++ String c EmptyString
  end.

Definition trimEnd (s : string) : string := rev (trimStart (rev s)).

(** [s.trim()] *)
Definition trim (s : string) : string := trimEnd (trimStart s).

(** [s.includes(t)] *)
Fixpoint includes (s t : string) : bool :=
  prefix t s ||
  match s with
  | EmptyString => false
  | String _ s' => includes s' t
  end.

(** [s.split(sep)[0]]: the characters before the first [sep]. *)
Fixpoint split_head (sep : ascii) (s : string) : string :=
  match s with
  | EmptyString => EmptyString
  | String c s' => if Ascii.eqb c sep then EmptyString else String c (split_head sep s')
  end.

(** The characters after the first [sep]; [None] when [s] has no [sep]. *)
Fixpoint split_tail (sep : ascii) (s : string) : option string :=
  match s with
  | EmptyString => None
  | String c s' => if Ascii.eqb c sep then Some s' else split_tail sep s'
  end.

(** [s.split(sep)[1]]; [None] stands for [undefined]. *)
Definition split_second (sep : ascii) (s : string) : option string :=
  match split_tail sep s with
  | Some rest => Some (split_head sep rest)
  | None => None
  end.

(** [l.join(sep)] *)
Fixpoint join (sep : string) (l : list string) : string :=
  match l with
  | [] => EmptyString
  | [s] => s
  | s :: l' => s ++ sep ++ join sep l'
  end.

(** A string is truthy when it is not empty. *)
Definition truthy (s : string) : bool := negb (s =? "").

End JsString.
Import JsString.

(** ** JavaScript numbers *)

Module JsNumber.

Definition Qltb (x y : Q) : bool := negb (Qle_bool y x).

(** A number as [JSON.parse] yields it: a finite double, given by its exact
    value, or an infinity, when the literal is too large for a double (as in
    [1e999]).  [JSON.parse] never yields [NaN]. *)
Inductive Number : Type :=
| Finite (q : Q)
| PosInfinity
| NegInfinity.

Coercion Finite : Q >-> Number.

(** [x <= y] and [x < y] *)
Definition Number_leb (x y : Number) : bool :=
  match x, y with
  | Finite a, Finite b => Qle_bool a b
  | NegInfinity, _ => true
  | _, PosInfinity => true
  | _, _ => false
  end.

Definition Number_ltb (x y : Number) : bool := negb (Number_leb y x).

Definition decimal (n : Z) : string :=
  NilZero.string_of_uint (N.to_uint (Z.to_N n)).

(** The integer [n] for which [n / 10 - a] is as close to zero as possible,
    the larger one when there are two (ECMAScript, Number.prototype.toFixed). *)
Definition round_tenths (a : Q) : Z :=
  (20 * Qnum a + Zpos (Qden a)) / (2 * Zpos (Qden a)).

Definition ten_pow_21 : Q := inject_Z (10 ^ 21).

Section ToFixed.
(** [Number::toString], used by [toFixed] from 10^21 on. *)
Variable Number_toString : Q -> string.

(** [x.toFixed(1)] for a finite [x]. *)
Definition toFixed1 (x : Q) : string :=
  let s := if Qltb x 0 then "-" else "" in
  let a := Qabs x in
  if Qle_bool ten_pow_21 a then s ++ Number_toString a
  else
    let n := round_tenths a in
    s ++ decimal (n / 10) ++ "." ++ decimal (n mod 10).

(** [x.toFixed(1)]: a number that is not finite is printed by
    [Number::toString]. *)
Definition Number_toFixed1 (x : Number) : string :=
  match x with
  | Finite q => toFixed1 q
  | PosInfinity => "Infinity"
  | NegInfinity => "-Infinity"
  end.
End ToFixed.

End JsNumber.
Import JsNumber.

(** ** Values produced by [JSON.parse] *)

#[local] Set Warnings "-register-all".
Inductive JSON : Type :=
| JNull
| JBool (b : bool)
| JNumber (x : Number)
| JString (s : string)
| JArray (items : list JSON)
| JObject (fields : list (string * JSON)).

(** The own property [k] of an object; of two entries with one name the
    first counts. *)
Fixpoint assoc (k : string) (fields : list (string * JSON)) : option JSON :=
match fields with
| [] => None
| (k', v) :: rest => if k' =? k then Some v else assoc k rest
end.

(** [typeof v]; [None] stands for [undefined]. *)
Definition typeof (v : option JSON) : string :=
match v with
| None => "undefined"
| Some JNull => "object"
| Some (JBool _) => "boolean"
| Some (JNumber _) => "number"
| Some (JString _) => "string"
| Some (JArray _) => "object"
| Some (JObject _) => "object"
end.

(** [v[k]] for the property names the service reads.  Reading a property of
    [null] raises a TypeError ([None]); a property that is absent reads as
    [undefined] ([Some None]).  Numbers, booleans, strings and arrays have none
    of the property names read here. *)
Definition get_prop (v : JSON) (k : string) : option (option JSON) :=
  match v with
  | JNull => None
  | JObject fields => Some (assoc k fields)
  | _ => Some None
  end.

(** ** Data model ([types.ts]) *)

Definition ProduceKey := string.

Record ProduceItem : Type := {
  value : ProduceKey;
  label : string;
  icon : string
}.

(** A [File]: the MIME type is all the program reads of it. *)
Record File : Type := {
  name : string;
  type : string
}.

(** The parts of a [generateContent] request that vary: the inline image and
    what the prompt is built from (the option list for identification, the
    produce label for prediction).  Only the prediction request carries the
    response schema. *)
Inductive Request : Type :=
| IdentifyRequest (mimeType data allProduceNames : string)
| PredictionRequest (mimeType data fruitName : string).

(** What [await ai.models.generateContent(..)] does: it rejects, or it
    resolves to a response whose [text] may be [undefined]. *)
Inductive GenResponse : Type :=
| CallRejected
| Responded (text : option string).

(** The component state, one field per [useState]. *)
Record State : Type := {
  selectedProduceKey : ProduceKey;
  imageFile : option File;
  imagePreviewUrl : option string;
  prediction : option JSON;
  isLoading : bool;
  loadingText : string;
  error : option string;
  isCameraOpen : bool;
  suggestedProduceKey : option ProduceKey;
  searchText : string;
  isSearchFocused : bool
}.

Definition with_prediction (v : option JSON) (s : State) : State :=
  {| selectedProduceKey := selectedProduceKey s; imageFile := imageFile s;
     imagePreviewUrl := imagePreviewUrl s; prediction := v;
     isLoading := isLoading s; loadingText := loadingText s; error := error s;
     isCameraOpen := isCameraOpen s; suggestedProduceKey := suggestedProduceKey s;
     searchText := searchText s; isSearchFocused := isSearchFocused s |}.

Definition with_isLoading (v : bool) (s : State) : State :=
  {| selectedProduceKey := selectedProduceKey s; imageFile := imageFile s;
     imagePreviewUrl := imagePreviewUrl s; prediction := prediction s;
     isLoading := v; loadingText := loadingText s; error := error s;
     isCameraOpen := isCameraOpen s; suggestedProduceKey := suggestedProduceKey s;
     searchText := searchText s; isSearchFocused := isSearchFocused s |}.

Definition with_loadingText (v : string) (s : State) : State :=
  {| selectedProduceKey := selectedProduceKey s; imageFile := imageFile s;
     imagePreviewUrl := imagePreviewUrl s; prediction := prediction s;
     isLoading := isLoading s; loadingText := v; error := error s;
     isCameraOpen := isCameraOpen s; suggestedProduceKey := suggestedProduceKey s;
     searchText := searchText s; isSearchFocused := isSearchFocused s |}.

Definition with_error (v : option string) (s : State) : State :=
  {| selectedProduceKey := selectedProduceKey s; imageFile := imageFile s;
     imagePreviewUrl := imagePreviewUrl s; prediction := prediction s;
     isLoading := isLoading s; loadingText := loadingText s; error := v;
     isCameraOpen := isCameraOpen s; suggestedProduceKey := suggestedProduceKey s;
     searchText := searchText s; isSearchFocused := isSearchFocused s |}.

Definition with_suggestedProduceKey (v : option ProduceKey) (s : State) : State :=
  {| selectedProduceKey := selectedProduceKey s; imageFile := imageFile s;
     imagePreviewUrl := imagePreviewUrl s; prediction := prediction s;
     isLoading := isLoading s; loadingText := loadingText s; error := error s;
     isCameraOpen := isCameraOpen s; suggestedProduceKey := v;
     searchText := searchText s; isSearchFocused := isSearchFocused s |}.

Definition with_selectedProduceKey (v : ProduceKey) (s : State) : State :=
  {| selectedProduceKey := v; imageFile := imageFile s;
     imagePreviewUrl := imagePreviewUrl s; prediction := prediction s;
     isLoading := isLoading s; loadingText := loadingText s; error := error s;
     isCameraOpen := isCameraOpen s; suggestedProduceKey := suggestedProduceKey s;
     searchText := searchText s; isSearchFocused := isSearchFocused s |}.

Definition with_imageFile (v : option File) (s : State) : State :=
  {| selectedProduceKey := selectedProduceKey s; imageFile := v;
     imagePreviewUrl := imagePreviewUrl s; prediction := prediction s;
     isLoading := isLoading s; loadingText := loadingText s; error := error s;
     isCameraOpen := isCameraOpen s; suggestedProduceKey := suggestedProduceKey s;
     searchText := searchText s; isSearchFocused := isSearchFocused s |}.

Definition with_imagePreviewUrl (v : option string) (s : State) : State :=
  {| selectedProduceKey := selectedProduceKey s; imageFile := imageFile s;
     imagePreviewUrl := v; prediction := prediction s;
     isLoading := isLoading s; loadingText := loadingText s; error := error s;
     isCameraOpen := isCameraOpen s; suggestedProduceKey := suggestedProduceKey s;
     searchText := searchText s; isSearchFocused := isSearchFocused s |}.

Definition with_isCameraOpen (v : bool) (s : State) : State :=
  {| selectedProduceKey := selectedProduceKey s; imageFile := imageFile s;
     imagePreviewUrl := imagePreviewUrl s; prediction := prediction s;
     isLoading := isLoading s; loadingText := loadingText s; error := error s;
     isCameraOpen := v; suggestedProduceKey := suggestedProduceKey s;
     searchText := searchText s; isSearchFocused := isSearchFocused s |}.

Definition with_searchText (v : string) (s : State) : State :=
  {| selectedProduceKey := selectedProduceKey s; imageFile := imageFile s;
     imagePreviewUrl := imagePreviewUrl s; prediction := prediction s;
     isLoading := isLoading s; loadingText := loadingText s; error := error s;
     isCameraOpen := isCameraOpen s; suggestedProduceKey := suggestedProduceKey s;
     searchText := v; isSearchFocused := isSearchFocused s |}.

Definition with_isSearchFocused (v : bool) (s : State) : State :=
  {| selectedProduceKey := selectedProduceKey s; imageFile := imageFile s;
     imagePreviewUrl := imagePreviewUrl s; prediction := prediction s;
     isLoading := isLoading s; loadingText := loadingText s; error := error s;
     isCameraOpen := isCameraOpen s; suggestedProduceKey := suggestedProduceKey s;
     searchText := searchText s; isSearchFocused := v |}.

(** ** The monad of handlers *)

(** What a [throw] or a rejected promise carries. *)
Inductive Exn : Type :=
| Error (message : string)
| TypeError
| SyntaxError
| Rejection.

Inductive Outcome (A : Type) : Type :=
| Return (a : A)
| Throw (e : Exn).
Arguments Return {A} a.
Arguments Throw {A} e.

(** What the handlers ask of the browser besides the file reader: object
    URLs, the clock, the camera and the canvas of the capture overlay. *)
Record Browser : Type := {
  (** [URL.createObjectURL(file)] *)
  createObjectURL : File -> string;
  (** [Date.now()] *)
  Date_now : Z;
  (** [videoRef.current] and [canvasRef.current] are attached *)
  videoRef_current : bool;
  canvasRef_current : bool;
  (** [canvas.getContext('2d')] is not [null] *)
  canvas_getContext : bool;
  (** [canvas.toBlob] hands over a blob, not [null] *)
  canvas_toBlob : bool;
  (** [navigator.mediaDevices] and its [getUserMedia] exist *)
  mediaDevices_getUserMedia : bool;
  (** [getUserMedia(..)] resolves; [video.play()] resolves *)
  getUserMedia_resolves : bool;
  video_play_resolves : bool;
  (** [err.message] of an [err] that the program did not construct itself;
      [None] when [err] is not an [Error] *)
  foreign_message : Exn -> option string
}.

(** The store: the React state as the setter calls so far leave it, and the
    requests sent to the model, oldest first, each with the state at the
    moment of the call. *)
Record Store : Type := {
  ui : State;
  calls : list (State * Request)
}.

Definition M (A : Type) : Type := Store -> Outcome A * Store.

Definition log_call (request : Request) (st : Store) : Store :=
  {| ui := ui st; calls := calls st ++ [(ui st, request)] |}.

Definition ret {A} (a : A) : M A := fun st => (Return a, st).

Definition bind {A B} (m : M A) (k : A -> M B) : M B :=
  fun st =>
    match m st with
    | (Return a, st') => k a st'
    | (Throw e, st') => (Throw e, st')
    end.

Definition throw {A} (e : Exn) : M A := fun st => (Throw e, st).

(** [try { body } catch (err) { handler }] *)
Definition try_catch {A} (body : M A) (handler : Exn -> M A) : M A :=
  fun st =>
    match body st with
    | (Return a, st') => (Return a, st')
    | (Throw e, st') => handler e st'
    end.

(** [try { body } finally { final }] *)
Definition try_finally {A} (body : M A) (final : M unit) : M A :=
  fun st =>
    match body st with
    | (r, st') =>
        match final st' with
        | (Return _, st'') => (r, st'')
        | (Throw e, st'') => (Throw e, st'')
        end
    end.

Declare Scope js_scope.
Delimit Scope js_scope with js.
Notation "x <- m ;; k" := (bind m (fun x => k))
  (at level 100, m at next level, right associativity) : js_scope.
Notation "m ;; k" := (bind m (fun _ => k))
  (at level 100, right associativity) : js_scope.
Local Open Scope js_scope.

Definition modify (f : State -> State) : M unit :=
  fun st => (Return tt, {| ui := f (ui st); calls := calls st |}).

Definition setPrediction (v : option JSON) : M unit := modify (with_prediction v).
Definition setIsLoading (v : bool) : M unit := modify (with_isLoading v).
Definition setLoadingText (v : string) : M unit := modify (with_loadingText v).
Definition setError (v : option string) : M unit := modify (with_error v).
Definition setSuggestedProduceKey (v : option ProduceKey) : M unit :=
  modify (with_suggestedProduceKey v).
Definition setSelectedProduceKey (v : ProduceKey) : M unit :=
  modify (with_selectedProduceKey v).

Definition setImageFile (v : option File) : M unit := modify (with_imageFile v).
Definition setImagePreviewUrl (v : option string) : M unit := modify (with_imagePreviewUrl v).
Definition setIsCameraOpen (v : bool) : M unit := modify (with_isCameraOpen v).
Definition setSearchText (v : string) : M unit := modify (with_searchText v).
Definition setIsSearchFocused (v : bool) : M unit := modify (with_isSearchFocused v).

(** [a || b] on operands that are an object or [null]. *)
Definition js_or {A} (a b : option A) : option A :=
  match a with
  | Some x => Some x
  | None => b
  end.

(** [console.error(..)] changes nothing the program reads. *)
Definition console_error : M unit := ret tt.

(** [a || b] on effectful conditions, left to right. *)
Definition orelse (a b : M bool) : M bool :=
  x <- a ;; if x then ret true else b.
Infix "|||" := orelse (at level 50, left associativity) : js_scope.

(** ** Specification vocabulary *)

(** [label] contains [query], letter case ignored. *)
Definition contains_ci (label query : string) : Prop :=
  exists pre post, toLowerCase label = pre ++ toLowerCase query ++ post.

(** [l1] is [l2] with some entries left out, the order kept. *)
Inductive Subseq {A : Type} : list A -> list A -> Prop :=
| Subseq_nil : Subseq [] []
| Subseq_skip x l1 l2 : Subseq l1 l2 -> Subseq l1 (x :: l2)
| Subseq_keep x l1 l2 : Subseq l1 l2 -> Subseq (x :: l1) (x :: l2).

(** *** Letter case and white space, as the specification means them

    These definitions do not use [toLowerCase] or [trim]; the theorems relate
    the program to them.  They are about text in ASCII, on which the
    embedding of [toLowerCase] and [trim] is exact. *)






(** The white space of ASCII: TAB, LF, VT, FF, CR and SP. *)
Definition white_space : list ascii :=
  [ "009"; "010"; "011"; "012"; "013"; " " ]%char.

Definition is_white (c : ascii) : bool := existsb (Ascii.eqb c) white_space.

(** [s] is white space only. *)
Fixpoint blank (s : string) : bool :=
  match s with
  | EmptyString => true
  | String c s' => is_white c && blank s'
  end.

Definition first_char (s : string) : option ascii :=
  match s with
  | EmptyString => None
  | String c _ => Some c
  end.

Fixpoint last_char (s : string) : option ascii :=
  match s with
  | EmptyString => None
  | String c EmptyString => Some c
  | String _ s' => last_char s'
  end.

(** [u] neither starts nor ends with white space. *)
Definition bare (u : string) : bool :=
  match first_char u, last_char u with
  | Some c, Some d => negb (is_white c) && negb (is_white d)
  | _, _ => true
  end.

(** [u] is [t] without the white space at its two ends. *)
Definition trimmed (t u : string) : Prop :=
  exists a b, t = a ++ u ++ b /\ blank a = true /\ blank b = true /\ bare u = true.

(** The top level of the response schema sent with the prediction request:
    property name and the [typeof] its value must have. *)
Definition top_level_schema : list (string * string) :=
  [ ("days", "number"); ("status", "string"); ("recommendation", "string");
    ("infection_details", "object"); ("isPartlyMissing", "boolean");
    ("missingPartDescription", "string") ].

(** The [infection_details] part of the schema: three required strings. *)
Definition infection_schema : list (string * string) :=
  [ ("type", "string"); ("name", "string"); ("cause", "string") ].

Definition has_fields (schema : list (string * string)) (fields : list (string * JSON)) : bool :=
  forallb (fun kt => typeof (assoc (fst kt) fields) =? snd kt) schema.

(** The response schema of [getRipenessPrediction] (lines 66 to 110): an
    object with the six required properties, [infection_details] itself an
    object with its three required strings. *)
Definition conforms_to_schema (v : JSON) : bool :=
  match v with
  | JObject fields =>
      has_fields top_level_schema fields &&
      match assoc "infection_details" fields with
      | Some (JObject details) => has_fields infection_schema details
      | _ => false
      end
  | _ => false
  end.

(** What the validation of [getRipenessPrediction] rejects: [null], or a
    value one of whose top-level properties has the wrong [typeof]. *)
Definition fails_top_level (v : JSON) : Prop :=
  v = JNull \/
  exists k ty v', In (k, ty) top_level_schema /\ get_prop v k = Some v' /\ typeof v' <> ty.

(** ** A sample environment

    A small catalog, an image and a few model answers, in the shape the
    program expects, on which the theorems below are run. *)

Module Sample.

Definition apple : ProduceItem := {| value := "apple"; label := "Apple"; icon := "A" |}.
Definition banana : ProduceItem := {| value := "banana"; label := "Banana"; icon := "B" |}.
Definition tomato : ProduceItem :=
  {| value := "tomato"; label := "Tomato (Vegetable)"; icon := "T" |}.

Definition catalog : list ProduceItem := [apple; banana; tomato].

Definition photo : File := {| name := "photo.jpg"; type := "image/jpeg" |}.

(** An image is present, apple is selected, nothing has been analysed. *)
Definition imageReady : State :=
  {| selectedProduceKey := "apple"; imageFile := Some photo;
     imagePreviewUrl := Some "blob:photo"; prediction := None;
     isLoading := false; loadingText := "Analyzing..."; error := None;
     isCameraOpen := false; suggestedProduceKey := None;
     searchText := "Apple"; isSearchFocused := false |}.

Definition idle : State :=
  {| selectedProduceKey := "apple"; imageFile := None;
     imagePreviewUrl := None; prediction := None;
     isLoading := false; loadingText := "Analyzing..."; error := None;
     isCameraOpen := false; suggestedProduceKey := None;
     searchText := "Apple"; isSearchFocused := false |}.

(** The state [startAnalysis] leaves when the model answers Banana. *)
Definition suggestionPending : State :=
  with_loadingText "Identifying produce..."
    (with_suggestedProduceKey (Some "banana") imageReady).

(** The search box has focus and holds [query]. *)
Definition searching (query : string) : State :=
  {| selectedProduceKey := "apple"; imageFile := None;
     imagePreviewUrl := None; prediction := None;
     isLoading := false; loadingText := "Analyzing..."; error := None;
     isCameraOpen := false; suggestedProduceKey := None;
     searchText := query; isSearchFocused := true |}.

Definition encode : File -> option string := fun _ => Some "QUJD".
Definition encode_fails : File -> option string := fun _ => None.

(** A model that gives [identification] to the identification request and
    [diagnosis] to the prediction request. *)
Definition model (identification diagnosis : GenResponse) : Request -> GenResponse :=
  fun request =>
    match request with
    | IdentifyRequest _ _ _ => identification
    | PredictionRequest _ _ _ => diagnosis
    end.

Definition no_infection : JSON :=
  JObject [("type", JString ""); ("name", JString ""); ("cause", JString "")].

Definition diagnosis_of (infection_details : JSON) : JSON :=
  JObject [ ("days", JNumber (5 # 2)); ("status", JString "Unripe");
            ("recommendation", JString "Wait a few days.");
            ("infection_details", infection_details);
            ("isPartlyMissing", JBool false);
            ("missingPartDescription", JString "") ].

(** A response that follows the schema. *)
Definition well_formed : JSON := diagnosis_of no_infection.

(** A response whose [infection_details] is the empty object. *)
Definition no_details : JSON := diagnosis_of (JObject []).

(** A response without [status]. *)
Definition no_status : JSON :=
  JObject [ ("days", JNumber (5 # 2));
            ("recommendation", JString "Wait a few days.");
            ("infection_details", no_infection);
            ("isPartlyMissing", JBool false);
            ("missingPartDescription", JString "") ].

(** [JSON.parse] on a response text that denotes [v]. *)
Definition parses_to (v : JSON) : string -> option JSON := fun _ => Some v.

(** [Number::toString] as it prints 10^21. *)
Definition number_toString : Q -> string := fun _ => "1e+21".

(** The double nearest to 3.2. *)
Definition double_3_2 : Q := 7205759403792794 # 2251799813685248.

(** A browser in which the camera and the canvas work. *)
Definition browser : Browser :=
  {| createObjectURL := fun f => "blob:" ++ name f;
     Date_now := 1700000000000;
     videoRef_current := true;
     canvasRef_current := true;
     canvas_getContext := true;
     canvas_toBlob := true;
     mediaDevices_getUserMedia := true;
     getUserMedia_resolves := true;
     video_play_resolves := true;
     foreign_message := fun _ => None |}.

(** A browser whose canvas hands over no blob. *)
Definition browser_without_blob : Browser :=
  {| createObjectURL := fun f => "blob:" ++ name f;
     Date_now := 1700000000000;
     videoRef_current := true;
     canvasRef_current := true;
     canvas_getContext := true;
     canvas_toBlob := false;
     mediaDevices_getUserMedia := true;
     getUserMedia_resolves := true;
     video_play_resolves := true;
     foreign_message := fun _ => None |}.

(** A browser in which the use of the camera is denied. *)
Definition browser_camera_denied : Browser :=
  {| createObjectURL := fun f => "blob:" ++ name f;
     Date_now := 1700000000000;
     videoRef_current := true;
     canvasRef_current := true;
     canvas_getContext := true;
     canvas_toBlob := true;
     mediaDevices_getUserMedia := true;
     getUserMedia_resolves := false;
     video_play_resolves := true;
     foreign_message := fun _ => None |}.

(** The frame that [browser] captures. *)
Definition frame : File :=
  {| name := "capture_1700000000000.jpg"; type := "image/jpeg" |}.

(** The camera overlay is open over [imageReady]. *)
Definition cameraOpen : State := with_isCameraOpen true imageReady.

(** A prediction is shown and an error is left from before. *)
Definition resultReady : State :=
  with_error (Some "old") (with_prediction (Some well_formed) imageReady).

End Sample.

(** ** The program *)

Section App.

(** The catalog of [constants.ts]: a fixed, ordered list of entries. *)
Variable PRODUCE : list ProduceItem.

(** The browser's [FileReader] behind [fileToBase64]: the encoded image, or
    [None] when [reader.onerror] fires. *)
Variable fileToBase64 : File -> option string.

(** The remote model behind [ai.models.generateContent]. *)
Variable generateContent : Request -> GenResponse.

(** [JSON.parse]: [None] when it raises a SyntaxError. *)
Variable JSON_parse : string -> option JSON.

Variable Number_toString : Q -> string.

(** [await fileToBase64(file)] *)
Definition await_fileToBase64 (file : File) : M string :=
  match fileToBase64 file with
  | Some data => ret data
  | None => throw Rejection
  end.

(** [await ai.models.generateContent(request)]: the request is logged with the
    state at the moment of the call. *)
Definition await_generateContent (request : Request) : M GenResponse :=
  fun st =>
    match generateContent request with
    | CallRejected => (Throw Rejection, log_call request st)
    | Responded text => (Return (Responded text), log_call request st)
    end.

(** [response.text.trim()] *)
Definition response_text_trim (response : GenResponse) : M string :=
  match response with
  | Responded (Some text) => ret (trim text)
  | _ => throw TypeError
  end.

(** *** [services/geminiService] *)

Definition allProduceNames : string :=
  join ", " (map (fun p => trim (split_head "(" (label p))) PRODUCE).

(** Lines 27 to 36 of [identifyProduce], on the trimmed response text. *)
Definition resolveProduce (detectedProduceName : string) : string :=
  if toLowerCase detectedProduceName =? "none" then "None"
  else
    let foundProduce :=
      find (fun p => includes (toLowerCase (label p)) (toLowerCase detectedProduceName))
           PRODUCE in
    match foundProduce with
    | Some p => value p
    | None => ""
    end.

Definition identifyProduce (base64Image mimeType : string) : M string :=
  try_catch
    (response <- await_generateContent (IdentifyRequest mimeType base64Image allProduceNames) ;;
     detectedProduceName <- response_text_trim response ;;
     ret (resolveProduce detectedProduceName))
    (fun _ =>
       console_error ;;
       throw (Error "Failed to identify produce from Gemini API.")).

(** [typeof result.k !== ty] *)
Definition typeof_differs (result : JSON) (k ty : string) : M bool :=
  match get_prop result k with
  | None => throw TypeError
  | Some v => ret (negb (typeof v =? ty))
  end.

Definition getRipenessPrediction (base64Image mimeType fruitName : string) : M JSON :=
  try_catch
    (response <- await_generateContent (PredictionRequest mimeType base64Image fruitName) ;;
     jsonString <- response_text_trim response ;;
     result <- match JSON_parse jsonString with
               | Some v => ret v
               | None => throw SyntaxError
               end ;;
     invalid <- (typeof_differs result "days" "number"
                 ||| typeof_differs result "status" "string"
                 ||| typeof_differs result "recommendation" "string"
                 ||| typeof_differs result "infection_details" "object"
                 ||| typeof_differs result "isPartlyMissing" "boolean"
                 ||| typeof_differs result "missingPartDescription" "string") ;;
     if invalid : bool then throw (Error "Invalid JSON structure from API.")
     else ret result)
    (fun _ =>
       console_error ;;
       throw (Error "Failed to get prediction from Gemini API.")).

(** *** [App] *)

Definition findProduce (produceKey : ProduceKey) : option ProduceItem :=
  find (fun p => value p =? produceKey) PRODUCE.

(** [selectedProduce], the memo of the render. *)
Definition selectedProduce (r : State) : option ProduceItem :=
  findProduce (selectedProduceKey r).

Definition resetAnalysisState : M unit :=
  setPrediction None ;;
  setError None ;;
  setSuggestedProduceKey None.

Definition continueAnalysis (produceKey : ProduceKey) (imageBase64 mimeType : string) : M unit :=
  match findProduce produceKey with
  | None =>
      setError (Some "Invalid produce selected for analysis.") ;;
      setIsLoading false
  | Some produce =>
      setIsLoading true ;;
      setError None ;;
      try_finally
        (try_catch
           (setLoadingText "Analyzing ripeness..." ;;
            result <- getRipenessPrediction imageBase64 mimeType (label produce) ;;
            setPrediction (Some result))
           (fun _ =>
              console_error ;;
              setError (Some "Failed to complete analysis. The model may be unavailable. Please try again later.")))
        (setIsLoading false)
  end.

(** [startAnalysis(fileToAnalyze)] as created by the render whose state is [r]:
    [imageFile], [selectedProduceKey] and [selectedProduce] are read from [r]. *)
Definition startAnalysis (r : State) (fileToAnalyze : option File) : M unit :=
  let currentFile := js_or fileToAnalyze (imageFile r) in
  match currentFile, selectedProduce r with
  | Some currentFile, Some _ =>
      setIsLoading true ;;
      resetAnalysisState ;;
      try_catch
        (setLoadingText "Identifying produce..." ;;
         base64Image <- await_fileToBase64 currentFile ;;
         detectedProduceValue <- identifyProduce base64Image (type currentFile) ;;
         if detectedProduceValue =? "None" then
           setError (Some "No recognizable fruit or vegetable was found. Please try another photo.") ;;
           setIsLoading false
         else if truthy detectedProduceValue
                 && negb (detectedProduceValue =? selectedProduceKey r) then
           setSuggestedProduceKey (Some detectedProduceValue) ;;
           setIsLoading false
         else
           continueAnalysis (selectedProduceKey r) base64Image (type currentFile))
        (fun _ =>
           console_error ;;
           setError (Some "An AI error occurred during identification. Please try again.") ;;
           setIsLoading false)
  | _, _ =>
      setError (Some "Please select a produce item and an image first.")
  end.

(** [useSuggestion && suggestedProduceKey], when truthy. *)
Definition suggestion_in_use (useSuggestion : bool) (r : State) : option ProduceKey :=
  match suggestedProduceKey r with
  | Some k => if useSuggestion && truthy k then Some k else None
  | None => None
  end.

(** [handleSuggestion(useSuggestion)] of the render whose state is [r]. *)
Definition handleSuggestion (r : State) (useSuggestion : bool) : M unit :=
  match imageFile r with
  | None => ret tt
  | Some imageFile =>
      let produceToAnalyze :=
        match suggestion_in_use useSuggestion r with
        | Some k => k
        | None => selectedProduceKey r
        end in
      match suggestion_in_use useSuggestion r with
      | Some k => setSelectedProduceKey k
      | None => ret tt
      end ;;
      setSuggestedProduceKey None ;;
      base64Image <- await_fileToBase64 imageFile ;;
      continueAnalysis produceToAnalyze base64Image (type imageFile)
  end.

(** [filteredProduce], the memo of the render. *)
Definition filteredProduce (r : State) : list ProduceItem :=
  if negb (isSearchFocused r) then []
  else
    let lowercasedQuery := toLowerCase (searchText r) in
    filter (fun p => includes (toLowerCase (label p)) lowercasedQuery) PRODUCE.

Definition getDaysText (days : Number) : string :=
  if Number_ltb (Finite 1) days then Number_toFixed1 Number_toString days ++ " days"
  else if Number_leb (Finite 0) days && Number_leb days (Finite 1) then
    Number_toFixed1 Number_toString days ++ " days (Ready!)"
  else Number_toFixed1 Number_toString days ++ " days (Past Peak)".

(** A handler runs from the state of the render that created it, with an
    empty log. *)
Definition run {A} (m : M A) (s : State) : Outcome A * Store :=
  m {| ui := s; calls := [] |}.

(** *** The rest of [App] *)

Variable browser : Browser.

(** What [fileToBase64] resolves to once the reader has loaded [result], a
    data URL: the text after the first comma (lines 11 to 13); [None] stands
    for [undefined]. *)
Definition fileToBase64_resolved (result : string) : option string :=
  split_second "," result.

(** [!!v] for a string or [null]. *)
Definition truthy_opt (v : option string) : bool :=
  match v with
  | Some s => truthy s
  | None => false
  end.

Definition is_some {A} (v : option A) : bool :=
  match v with
  | Some _ => true
  | None => false
  end.

(** [fileInputRef.current.value = ''] empties the file picker; the program
    never reads the value back. *)
Definition clear_file_input : M unit := ret tt.

Definition handleClearImage : M unit :=
  setImageFile None ;;
  setImagePreviewUrl None ;;
  resetAnalysisState ;;
  clear_file_input.

(** [handleProduceSelect(produceKey)] of the render whose state is [r]. *)
Definition handleProduceSelect (r : State) (produceKey : ProduceKey) : M unit :=
  (if negb (produceKey =? selectedProduceKey r) then handleClearImage else ret tt) ;;
  setSelectedProduceKey produceKey ;;
  setIsSearchFocused false.

Definition handleSearchFocus : M unit :=
  setIsSearchFocused true ;;
  setSearchText "".

(** [handleImageUpload(event)]; [file] is [event.target.files?.[0]]. *)
Definition handleImageUpload (file : option File) : M unit :=
  match file with
  | Some file =>
      setImageFile (Some file) ;;
      let previewUrl := createObjectURL browser file in
      setImagePreviewUrl (Some previewUrl) ;;
      resetAnalysisState
  | None => ret tt
  end.

Definition handleCameraOpen : M unit :=
  if negb (mediaDevices_getUserMedia browser) then
    setError (Some "Camera is not supported on this device.")
  else
    setError None ;;
    setIsCameraOpen true.

(** The effect on [selectedProduce] (lines 69 to 73), as React runs it after
    the render with state [r] that follows the render with state [prev]: the
    memo [selectedProduce] is a new object exactly when the selected key has
    changed. *)
Definition searchText_effect (prev r : State) : M unit :=
  if selectedProduceKey prev =? selectedProduceKey r then ret tt
  else
    match selectedProduce r with
    | Some p => setSearchText (label p)
    | None => ret tt
    end.

(** The same effect on mount. *)
Definition searchText_effect_mount (r : State) : M unit :=
  match selectedProduce r with
  | Some p => setSearchText (label p)
  | None => ret tt
  end.

(** [handleClickOutside(event)] of the render whose state is [r]; [outside]
    tells that the search container is attached and does not contain the
    target of the event. *)
Definition handleClickOutside (r : State) (outside : bool) : M unit :=
  if outside then
    setIsSearchFocused false ;;
    match selectedProduce r with
    | Some p => setSearchText (label p)
    | None => ret tt
    end
  else ret tt.

(** A handler of the render whose state is [r], then the effect on
    [selectedProduce] as the next render runs it. *)
Definition then_searchText_effect (r : State) (handler : M unit) : M unit :=
  handler ;; (fun st => searchText_effect r (ui st) st).

(** [err instanceof Error ? err.message : ..] in [handleCapture]. *)
Definition capture_error_message (err : Exn) : string :=
  match err with
  | Error message => message
  | _ =>
      match foreign_message browser err with
      | Some message => message
      | None => "An unknown error occurred during capture."
      end
  end.

(** [handleCapture()] of the render whose state is [r]; the [startAnalysis]
    it calls is the one of that render.  Sizing the canvas and drawing the
    frame are taken to succeed; they change nothing the program reads. *)
Definition handleCapture (r : State) : M unit :=
  if negb (videoRef_current browser) || negb (canvasRef_current browser) then
    setError (Some "Camera is not ready. Please try again.") ;;
    setIsCameraOpen false
  else
    try_catch
      ((if negb (canvas_getContext browser)
        then throw (Error "Could not get canvas context.") else ret tt) ;;
       (if negb (canvas_toBlob browser)
        then throw (Error "Could not create blob from canvas.") else ret tt) ;;
       let capturedFile :=
         {| name := "capture_" ++ decimal (Date_now browser) ++ ".jpg";
            type := "image/jpeg" |} in
       setImageFile (Some capturedFile) ;;
       setImagePreviewUrl (Some (createObjectURL browser capturedFile)) ;;
       setIsCameraOpen false ;;
       resetAnalysisState ;;
       startAnalysis r (Some capturedFile))
      (fun err =>
         console_error ;;
         let errorMessage := capture_error_message err in
         setError (Some ("Failed to capture image: " ++ errorMessage)) ;;
         setIsCameraOpen false).

(** [enableStream()] of the camera effect, for the render whose state is
    [r], in what it does to the state; the stream it holds is read by the
    cleanup of the effect alone. *)
Definition enableStream (r : State) : M unit :=
  if isCameraOpen r && videoRef_current browser then
    try_catch
      ((if getUserMedia_resolves browser then ret tt else throw Rejection) ;;
       (if video_play_resolves browser then ret tt else throw Rejection))
      (fun _ =>
         console_error ;;
         setError (Some "Could not access the camera. Please check browser permissions and ensure no other app is using it.") ;;
         setIsCameraOpen false)
  else ret tt.

(** *** What the render offers *)

(** [suggestedProduce] (line 299): the entry of the suggested key. *)
Definition suggestedProduce (r : State) : option ProduceItem :=
  match suggestedProduceKey r with
  | Some k => findProduce k
  | None => None
  end.

(** The [disabled] attribute of the analyze button (line 374). *)
Definition analyze_disabled (r : State) : bool :=
  negb (is_some (imageFile r)) || isLoading r || truthy_opt (suggestedProduceKey r).

(** The suggestion box is rendered, with its two buttons (line 383). *)
Definition suggestion_offered (r : State) : bool :=
  is_some (suggestedProduce r).

(** The button that removes the image is rendered (lines 394 and 399). *)
Definition clear_image_offered (r : State) : bool :=
  truthy_opt (imagePreviewUrl r) && negb (isCameraOpen r) &&
  (negb (isLoading r) && negb (is_some (prediction r)) &&
   negb (truthy_opt (suggestedProduceKey r))).

(** *** Summaries of the service calls, used in the proofs *)

(** [typeof v.k !== ty] for a [v] that is not [null]. *)
Definition field_differs (v : JSON) (kt : string * string) : bool :=
  match get_prop v (fst kt) with
  | Some x => negb (typeof x =? snd kt)
  | None => true
  end.

(** The value [getRipenessPrediction] returns for a response, [None] when it
    throws. *)
Definition accepted_prediction (response : GenResponse) : option JSON :=
  match response with
  | Responded (Some text) =>
      match JSON_parse (trim text) with
      | Some JNull => None
      | Some v => if existsb (field_differs v) top_level_schema then None else Some v
      | None => None
      end
  | _ => None
  end.

(** The state once [startAnalysis] has passed its guard and named its first
    step: loading, with prediction, error and suggestion reset. *)
Definition identifying (s : State) : State :=
  with_loadingText "Identifying produce..."
    (with_suggestedProduceKey None
       (with_error None (with_prediction None (with_isLoading true s)))).

(** The state in which [continueAnalysis] sends the prediction request. *)
Definition analyzing (s : State) : State :=
  with_loadingText "Analyzing ripeness..."
    (with_error None (with_isLoading true s)).

Definition prediction_failure : Exn :=
  Error "Failed to get prediction from Gemini API.".

Definition identification_failure : Exn :=
  Error "Failed to identify produce from Gemini API.".

(** ** Strings *)

Lemma prefix_iff (t s : string) :
  prefix t s = true <-> exists post, s = t ++ post.
Proof.
  revert s. induction t as [|c t IH]; intros s; simpl.
  - split; [intros _; now exists s | intros _; destruct s; reflexivity].
  - destruct s as [|d s].
    + split; [discriminate | intros [post H]; discriminate].
    + simpl. destruct (ascii_dec c d) as [->|Hcd].
      * rewrite IH. split; intros [post H]; exists post.
        -- now rewrite H.
        -- now inversion H.
      * split; [discriminate | intros [post H]; inversion H; congruence].
Qed.

Lemma includes_nil (t : string) : includes "" t = prefix t "".
Proof. simpl. apply orb_false_r. Qed.

Lemma includes_cons (c : ascii) (s t : string) :
  includes (String c s) t = prefix t (String c s) || includes s t.
Proof. reflexivity. Qed.

Lemma includes_iff (s t : string) :
  includes s t = true <-> exists pre post, s = pre ++ t ++ post.
Proof.
  induction s as [|c s IH].
  - rewrite includes_nil, prefix_iff. split.
    + intros [post H]. now exists "", post.
    + intros [pre [post H]]. destruct pre; [now exists post | discriminate].
  - rewrite includes_cons, orb_true_iff, prefix_iff, IH. split.
    + intros [[post H] | [pre [post H]]].
      * now exists "", post.
      * exists (String c pre), post. simpl. now rewrite H.
    + intros [pre [post H]]. destruct pre as [|d pre]; simpl in H.
      * left. now exists post.
      * right. inversion H. now exists pre, post.
Qed.

Lemma includes_empty (s : string) : includes s "" = true.
Proof. destruct s; reflexivity. Qed.

Lemma includes_contains_ci (l q : string) :
  includes (toLowerCase l) (toLowerCase q) = true <-> contains_ci l q.
Proof. apply includes_iff. Qed.

Lemma Subseq_refl {A : Type} (l : list A) : Subseq l l.
Proof. induction l; [apply Subseq_nil | apply Subseq_keep; assumption]. Qed.


Lemma Subseq_In {A : Type} (l1 l2 : list A) (x : A) :
  Subseq l1 l2 -> In x l1 -> In x l2.
Proof.
  induction 1; simpl; intuition.
Qed.


Lemma filter_all {A : Type} (f : A -> bool) (l : list A) :
  (forall x, In x l -> f x = true) -> filter f l = l.
Proof.
  induction l as [|x l IH]; simpl; intros H; [reflexivity|].
  rewrite (H x (or_introl eq_refl)). f_equal. apply IH. intros y Hy. apply H. now right.
Qed.



Lemma append_nil_r (s : string) : s ++ "" = s.
Proof. induction s as [|c s IH]; simpl; [reflexivity | now rewrite IH]. Qed.

Lemma append_assoc (a b c : string) : (a ++ b) ++ c = a ++ b ++ c.
Proof. induction a as [|x a IH]; simpl; [reflexivity | now rewrite IH]. Qed.

Lemma rev_app (a b : string) : rev (a ++ b) = rev b ++ rev a.
Proof.
  induction a as [|c a IH]; simpl.
  - now rewrite append_nil_r.
  - now rewrite IH, append_assoc.
Qed.

Lemma rev_involutive (s : string) : rev (rev s) = s.
Proof.
  induction s as [|c s IH]; simpl; [reflexivity|].
  rewrite rev_app, IH. reflexivity.
Qed.





(** ** The program's folding and trimming against the specification's notions *)










Lemma is_space_white (c : ascii) : is_space c = is_white c.
Proof. destruct c as [[] [] [] [] [] [] [] []]; reflexivity. Qed.



Lemma trimStart_split (s : string) :
  exists a, s = a ++ trimStart s /\ blank a = true /\
            match first_char (trimStart s) with
            | Some c => is_white c = false
            | None => True
            end.
Proof.
  induction s as [|c s (a & Hs & Ha & Hf)]; simpl.
  - exists "". repeat split.
  - rewrite is_space_white. destruct (is_white c) eqn:Hc.
    + exists (String c a). simpl. rewrite Hc, Ha, <- Hs. repeat split. exact Hf.
    + exists "". simpl. repeat split. exact Hc.
Qed.

Lemma blank_app (a b : string) : blank (a ++ b) = blank a && blank b.
Proof.
  induction a as [|c a IH]; simpl; [reflexivity|].
  now rewrite IH, andb_assoc.
Qed.

Lemma blank_rev (s : string) : blank (rev s) = blank s.
Proof.
  induction s as [|c s IH]; simpl; [reflexivity|].
  rewrite blank_app, IH. simpl. rewrite andb_true_r. apply andb_comm.
Qed.

Lemma last_char_app (s : string) (c : ascii) :
  last_char (s ++ String c "") = Some c.
Proof.
  induction s as [|d s IH]; [reflexivity|].
  simpl. rewrite IH. destruct (s ++ String c ""); [discriminate IH | reflexivity].
Qed.


Lemma first_char_rev (s : string) : first_char (rev s) = last_char s.
Proof.
  rewrite <- (rev_involutive s) at 2.
  destruct (rev s) as [|c r]; [reflexivity|].
  simpl. now rewrite last_char_app.
Qed.

Lemma last_char_rev (s : string) : last_char (rev s) = first_char s.
Proof.
  rewrite <- first_char_rev. now rewrite rev_involutive.
Qed.

Lemma first_char_app (a b : string) :
  a <> "" -> first_char (a ++ b) = first_char a.
Proof. destruct a; [contradiction | reflexivity]. Qed.

(** Splitting at the end, as [trimStart_split] does at the start. *)
Lemma trimEnd_split (s : string) :
  exists b, s = trimEnd s ++ b /\ blank b = true /\
            match last_char (trimEnd s) with
            | Some c => is_white c = false
            | None => True
            end.
Proof.
  unfold trimEnd. destruct (trimStart_split (rev s)) as (a & Hs & Ha & Hf).
  exists (rev a). split; [|split].
  - rewrite <- rev_app, <- Hs. symmetry. apply rev_involutive.
  - now rewrite blank_rev.
  - now rewrite last_char_rev.
Qed.

(** [trim] returns the text without the white space at its two ends. *)
Lemma trim_trimmed (t : string) : trimmed t (trim t).
Proof.
  unfold trim. destruct (trimStart_split t) as (a & Ht & Ha & Hf).
  destruct (trimEnd_split (trimStart t)) as (b & Hw & Hb & Hl).
  exists a, b. split; [now rewrite <- Hw|]. split; [exact Ha|]. split; [exact Hb|].
  unfold bare.
  destruct (trimEnd (trimStart t)) as [|c w] eqn:E; [reflexivity|].
  rewrite Hw in Hf. cbn [first_char append] in Hf.
  cbn [first_char]. destruct (last_char (String c w)) as [d|]; [|reflexivity].
  now rewrite Hf, Hl.
Qed.


(** ** Search *)






(** ** Days text *)

Lemma Qltb_lt (x y : Q) : Qltb x y = true <-> x < y.
Proof.
  unfold Qltb. rewrite negb_true_iff. split.
  - intros H. apply Qnot_le_lt. intros Hle. apply Qle_bool_iff in Hle. congruence.
  - intros H. destruct (Qle_bool y x) eqn:E; [|reflexivity].
    apply Qle_bool_iff in E. exfalso. exact (Qlt_not_le _ _ H E).
Qed.

Lemma Qltb_ge (x y : Q) : Qltb x y = false <-> y <= x.
Proof.
  unfold Qltb. rewrite negb_false_iff. apply Qle_bool_iff.
Qed.

(** The rounding of [toFixed1] is to the nearest tenth, upwards on a tie:
    [n - 1/2 <= 10 a < n + 1/2]. *)
Lemma round_tenths_nearest (a : Q) :
  inject_Z (round_tenths a) - (1 # 2) <= 10 * a /\
  10 * a < inject_Z (round_tenths a) + (1 # 2).
Proof.
  unfold round_tenths. destruct a as [p q].
  unfold Qle, Qlt, Qminus, Qplus, Qmult, Qopp, inject_Z.
  cbn [Qnum Qden].
  set (d := (2 * Z.pos q)%Z).
  set (m := (20 * p + Z.pos q)%Z).
  assert (Hd : (0 < d)%Z) by (unfold d; lia).
  pose proof (Z.mul_div_le m d Hd) as Hlo.
  pose proof (Z.mul_succ_div_gt m d Hd) as Hhi.
  set (n := (m / d)%Z) in *.
  unfold d, m in *. clearbody n.
  rewrite ?Pos2Z.inj_mul. split; lia.
Qed.

Lemma getDaysText_finite (days : Q) :
  getDaysText days =
  if Qltb 1 days then toFixed1 Number_toString days ++ " days"
  else if Qle_bool 0 days && Qle_bool days 1 then
    toFixed1 Number_toString days ++ " days (Ready!)"
  else toFixed1 Number_toString days ++ " days (Past Peak)".
Proof. reflexivity. Qed.


(** ** The service *)

Ltac js_unfold :=
  cbv beta iota delta
    [bind ret throw try_catch try_finally modify orelse console_error
     setPrediction setIsLoading setLoadingText setError
     setSuggestedProduceKey setSelectedProduceKey resetAnalysisState];
  cbn [ui calls].

Lemma identifyProduce_responded (d m t : string) (st : Store) :
  generateContent (IdentifyRequest m d allProduceNames) = Responded (Some t) ->
  identifyProduce d m st =
  (Return (resolveProduce (trim t)), log_call (IdentifyRequest m d allProduceNames) st).
Proof.
  intros H. unfold identifyProduce, await_generateContent. js_unfold.
  rewrite H. reflexivity.
Qed.

Lemma identifyProduce_failed (d m : string) (st : Store) :
  generateContent (IdentifyRequest m d allProduceNames) = CallRejected \/
  generateContent (IdentifyRequest m d allProduceNames) = Responded None ->
  identifyProduce d m st =
  (Throw identification_failure, log_call (IdentifyRequest m d allProduceNames) st).
Proof.
  intros [H|H]; unfold identifyProduce, await_generateContent; js_unfold;
    rewrite H; reflexivity.
Qed.

Lemma JNull_dec (v : JSON) : {v = JNull} + {v <> JNull}.
Proof. destruct v; (now left) || (right; discriminate). Qed.

Lemma typeof_differs_pure (v : JSON) (k ty : string) (st : Store) :
  v <> JNull ->
  typeof_differs v k ty st = (Return (field_differs v (k, ty)), st).
Proof.
  intros Hv. unfold typeof_differs, field_differs. cbn [fst snd].
  destruct v; try contradiction; reflexivity.
Qed.

Lemma orelse_pure (a b : M bool) (x y : bool) (st : Store) :
  a st = (Return x, st) -> b st = (Return y, st) ->
  (a ||| b) st = (Return (x || y), st).
Proof.
  intros Ha Hb. unfold orelse, bind. rewrite Ha. destruct x; [reflexivity|].
  rewrite Hb. reflexivity.
Qed.

Lemma validation_pure (v : JSON) (st : Store) :
  v <> JNull ->
  (typeof_differs v "days" "number"
   ||| typeof_differs v "status" "string"
   ||| typeof_differs v "recommendation" "string"
   ||| typeof_differs v "infection_details" "object"
   ||| typeof_differs v "isPartlyMissing" "boolean"
   ||| typeof_differs v "missingPartDescription" "string") st =
  (Return (existsb (field_differs v) top_level_schema), st).
Proof.
  intros Hv. cbn [existsb top_level_schema].
  rewrite orb_false_r, !orb_assoc.
  repeat (apply orelse_pure; [|now apply typeof_differs_pure]).
  now apply typeof_differs_pure.
Qed.

(** [getRipenessPrediction] sends one request; it returns the parsed value
    when the top-level checks pass and throws the one error otherwise. *)
Lemma getRipenessPrediction_eq (d m f : string) (st : Store) :
  getRipenessPrediction d m f st =
  (match accepted_prediction (generateContent (PredictionRequest m d f)) with
   | Some v => Return v
   | None => Throw prediction_failure
   end,
   log_call (PredictionRequest m d f) st).
Proof.
  unfold getRipenessPrediction, accepted_prediction.
  unfold try_catch at 1. unfold bind at 1. unfold await_generateContent.
  destruct (generateContent (PredictionRequest m d f)) as [|[t|]];
    [reflexivity | | reflexivity].
  unfold bind at 1. cbn [response_text_trim]. unfold ret at 1.
  unfold bind at 1.
  destruct (JSON_parse (trim t)) as [v|]; [|reflexivity].
  unfold ret at 1. unfold bind at 1.
  destruct (JNull_dec v) as [->|Hv]; [reflexivity|].
  rewrite (validation_pure v _ Hv).
  destruct v; try contradiction;
    destruct (existsb _ top_level_schema); reflexivity.
Qed.

(** ** The controller *)

Lemma continueAnalysis_found (k : ProduceKey) (p : ProduceItem) (d m : string) (st : Store) :
  findProduce k = Some p ->
  continueAnalysis k d m st =
  (Return tt,
   {| ui := with_isLoading false
              match accepted_prediction (generateContent (PredictionRequest m d (label p))) with
              | Some v => with_prediction (Some v) (analyzing (ui st))
              | None =>
                  with_error
                    (Some "Failed to complete analysis. The model may be unavailable. Please try again later.")
                    (analyzing (ui st))
              end;
      calls := calls st ++ [(analyzing (ui st), PredictionRequest m d (label p))] |}).
Proof.
  intros H. unfold continueAnalysis. rewrite H. js_unfold.
  rewrite getRipenessPrediction_eq.
  destruct (accepted_prediction _); reflexivity.
Qed.

Lemma continueAnalysis_missing (k : ProduceKey) (d m : string) (st : Store) :
  findProduce k = None ->
  continueAnalysis k d m st =
  (Return tt,
   {| ui := with_isLoading false
              (with_error (Some "Invalid produce selected for analysis.") (ui st));
      calls := calls st |}).
Proof.
  intros H. unfold continueAnalysis. rewrite H. reflexivity.
Qed.

(** [continueAnalysis] catches every failure and leaves the loading flag
    cleared. *)
Lemma continueAnalysis_settles (k : ProduceKey) (d m : string) (st : Store) :
  exists st', continueAnalysis k d m st = (Return tt, st') /\
              isLoading (ui st') = false.
Proof.
  destruct (findProduce k) as [p|] eqn:E.
  - rewrite (continueAnalysis_found k p d m st E). eexists. split; reflexivity.
  - rewrite (continueAnalysis_missing k d m st E). eexists. split; reflexivity.
Qed.

(** The run of [startAnalysis] up to the answer of [identifyProduce]. *)
Lemma startAnalysis_identified (r : State) (fileToAnalyze : option File) (st : Store)
      (f : File) (p : ProduceItem) (b64 t : string) :
  js_or fileToAnalyze (imageFile r) = Some f ->
  selectedProduce r = Some p ->
  fileToBase64 f = Some b64 ->
  generateContent (IdentifyRequest (type f) b64 allProduceNames) = Responded (Some t) ->
  let st1 := {| ui := identifying (ui st);
                calls := calls st ++
                         [(identifying (ui st), IdentifyRequest (type f) b64 allProduceNames)] |} in
  let detected := resolveProduce (trim t) in
  startAnalysis r fileToAnalyze st =
  if detected =? "None" then
    (Return tt,
     {| ui := with_isLoading false
                (with_error
                   (Some "No recognizable fruit or vegetable was found. Please try another photo.")
                   (ui st1));
        calls := calls st1 |})
  else if truthy detected && negb (detected =? selectedProduceKey r) then
    (Return tt,
     {| ui := with_isLoading false (with_suggestedProduceKey (Some detected) (ui st1));
        calls := calls st1 |})
  else continueAnalysis (selectedProduceKey r) b64 (type f) st1.
Proof.
  intros Hfile Hsel Henc Hgen st1 detected.
  unfold startAnalysis. rewrite Hfile, Hsel. js_unfold.
  unfold await_fileToBase64. rewrite Henc. js_unfold.
  rewrite (identifyProduce_responded _ _ t _ Hgen).
  fold detected. unfold log_call. cbn [ui calls].
  destruct (detected =? "None"); [reflexivity|].
  destruct (truthy detected && negb (detected =? selectedProduceKey r)); [reflexivity|].
  fold (identifying (ui st)).
  destruct (continueAnalysis_settles (selectedProduceKey r) b64 (type f) st1) as [st' [E _]].
  unfold st1 in *. unfold identifying in *. rewrite E. reflexivity.
Qed.

(** *** Name resolution *)

Lemma find_none_iff {A : Type} (f : A -> bool) (l : list A) :
  find f l = None <-> forall x, In x l -> f x = false.
Proof.
  split; [apply find_none|].
  induction l as [|x l IH]; simpl; intros H; [reflexivity|].
  rewrite (H x (or_introl eq_refl)). apply IH. intros y Hy. apply H. now right.
Qed.



Lemma resolveProduce_none (t : string) :
  toLowerCase t = "none" -> resolveProduce t = "None".
Proof.
  intros H. unfold resolveProduce. now rewrite H.
Qed.



Lemma resolveProduce_range (t : string) :
  resolveProduce t = "None" \/ resolveProduce t = "" \/
  exists p, In p PRODUCE /\ contains_ci (label p) t /\ resolveProduce t = value p.
Proof.
  unfold resolveProduce. destruct (toLowerCase t =? "none"); [now left|].
  destruct (find _ PRODUCE) as [p|] eqn:E; [|now right; left].
  right; right. exists p. apply find_some in E. destruct E as [Hin Hc].
  split; [assumption|]. split; [now apply includes_contains_ci | reflexivity].
Qed.

(** A result of [resolveProduce] that is neither the literal None nor empty
    is the key of a catalog entry, so [findProduce] finds it: a suggestion
    raised by [startAnalysis] always names a produce of the catalog. *)
Lemma resolveProduce_found (t : string) :
  resolveProduce t <> "None" ->
  resolveProduce t <> "" ->
  exists q, findProduce (resolveProduce t) = Some q /\ value q = resolveProduce t.
Proof.
  intros HnN Hne.
  destruct (resolveProduce_range t) as [H|[H|(p & Hin & _ & Hp)]];
    [contradiction | contradiction |].
  unfold findProduce.
  destruct (find (fun p0 => value p0 =? resolveProduce t) PRODUCE) as [q|] eqn:E.
  - exists q. split; [reflexivity|]. apply find_some in E.
    now apply String.eqb_eq.
  - exfalso. pose proof (find_none _ _ E p Hin) as Hf. cbv beta in Hf.
    rewrite Hp, String.eqb_refl in Hf. discriminate.
Qed.



(** *** Starting an analysis *)

(** C6. With no image at hand, or with a selected key that is not in the
    catalog, [startAnalysis] only sets the message asking for a produce item
    and an image: it returns normally, sends no request, and leaves the
    loading flag and every other field as they were. *)
Theorem startAnalysis_missing_input (r : State) (fileToAnalyze : option File) (st : Store) :
  js_or fileToAnalyze (imageFile r) = None \/ selectedProduce r = None ->
  exists st',
    startAnalysis r fileToAnalyze st = (Return tt, st') /\
    error (ui st') = Some "Please select a produce item and an image first." /\
    calls st' = calls st /\
    isLoading (ui st') = isLoading (ui st) /\
    st' = {| ui := with_error (Some "Please select a produce item and an image first.") (ui st);
             calls := calls st |}.
Proof.
  intros H. eexists. split.
  { unfold startAnalysis. destruct H as [H|H]; rewrite H.
    - reflexivity.
    - destruct (js_or fileToAnalyze (imageFile r)); reflexivity. }
  repeat split.
Qed.

(** C5. When identification answers None, whatever the state before,
    [startAnalysis] ends with the message asking for another photo, no
    prediction, no suggestion and the loading flag cleared; the only request
    sent is the identification request. *)
Theorem startAnalysis_none_recognized (r : State) (fileToAnalyze : option File) (st : Store)
        (f : File) (p : ProduceItem) (b64 t : string) :
  js_or fileToAnalyze (imageFile r) = Some f ->
  selectedProduce r = Some p ->
  fileToBase64 f = Some b64 ->
  generateContent (IdentifyRequest (type f) b64 allProduceNames) = Responded (Some t) ->
  resolveProduce (trim t) = "None" ->
  exists st',
    startAnalysis r fileToAnalyze st = (Return tt, st') /\
    error (ui st') =
      Some "No recognizable fruit or vegetable was found. Please try another photo." /\
    prediction (ui st') = None /\
    suggestedProduceKey (ui st') = None /\
    isLoading (ui st') = false /\
    calls st' = (calls st ++
                 [(identifying (ui st), IdentifyRequest (type f) b64 allProduceNames)])%list.
Proof.
  intros Hfile Hsel Henc Hgen Hres.
  rewrite (startAnalysis_identified r fileToAnalyze st f p b64 t Hfile Hsel Henc Hgen).
  rewrite Hres. cbn [String.eqb Ascii.eqb Bool.eqb]. cbv iota.
  eexists. split; [reflexivity|]. repeat split.
Qed.

(** C1. When identification resolves to a catalog key that is not empty and
    differs from the selected key, [startAnalysis] ends with that key stored
    as the suggestion, the loading flag cleared, no error and no prediction;
    the only request sent is the identification request, so no prediction
    request is made. *)
Theorem startAnalysis_suggestion (r : State) (fileToAnalyze : option File) (st : Store)
        (f : File) (p q : ProduceItem) (b64 t : string) :
  js_or fileToAnalyze (imageFile r) = Some f ->
  selectedProduce r = Some p ->
  fileToBase64 f = Some b64 ->
  generateContent (IdentifyRequest (type f) b64 allProduceNames) = Responded (Some t) ->
  In q PRODUCE ->
  resolveProduce (trim t) = value q ->
  value q <> "None" ->
  value q <> "" ->
  value q <> selectedProduceKey r ->
  exists st',
    startAnalysis r fileToAnalyze st = (Return tt, st') /\
    suggestedProduceKey (ui st') = Some (value q) /\
    isLoading (ui st') = false /\
    error (ui st') = None /\
    prediction (ui st') = None /\
    selectedProduceKey (ui st') = selectedProduceKey (ui st) /\
    calls st' = (calls st ++
                 [(identifying (ui st), IdentifyRequest (type f) b64 allProduceNames)])%list.
Proof.
  intros Hfile Hsel Henc Hgen Hq Hres HnN Hne Hns.
  rewrite (startAnalysis_identified r fileToAnalyze st f p b64 t Hfile Hsel Henc Hgen).
  rewrite Hres. unfold truthy.
  apply String.eqb_neq in HnN, Hne, Hns. rewrite HnN, Hne, Hns. cbn [negb andb].
  eexists. split; [reflexivity|]. repeat split.
Qed.


(** [startAnalysis] never throws once past its guard: every failure of the
    encoding or of the identification ends in a message, with the loading
    flag cleared. *)
Lemma startAnalysis_settles (r : State) (fileToAnalyze : option File) (st : Store)
      (f : File) (p : ProduceItem) :
  js_or fileToAnalyze (imageFile r) = Some f ->
  selectedProduce r = Some p ->
  exists st', startAnalysis r fileToAnalyze st = (Return tt, st') /\
              isLoading (ui st') = false.
Proof.
  intros Hfile Hsel.
  destruct (fileToBase64 f) as [b64|] eqn:Henc.
  - destruct (generateContent (IdentifyRequest (type f) b64 allProduceNames))
      as [|[t|]] eqn:Hgen.
    + unfold startAnalysis. rewrite Hfile, Hsel. js_unfold.
      unfold await_fileToBase64. rewrite Henc. js_unfold.
      rewrite identifyProduce_failed by (now left).
      eexists. split; reflexivity.
    + rewrite (startAnalysis_identified r fileToAnalyze st f p b64 t Hfile Hsel Henc Hgen).
      destruct (resolveProduce (trim t) =? "None"); [eexists; split; reflexivity|].
      destruct (truthy _ && _); [eexists; split; reflexivity|].
      apply continueAnalysis_settles.
    + unfold startAnalysis. rewrite Hfile, Hsel. js_unfold.
      unfold await_fileToBase64. rewrite Henc. js_unfold.
      rewrite identifyProduce_failed by (now right).
      eexists. split; reflexivity.
  - unfold startAnalysis. rewrite Hfile, Hsel. js_unfold.
    unfold await_fileToBase64. rewrite Henc.
    eexists. split; reflexivity.
Qed.

(** *** Answering a suggestion *)

(** The run of [handleSuggestion] up to the encoding of the image. *)
Lemma handleSuggestion_eq (r : State) (useSuggestion : bool) (f : File) (st : Store) :
  imageFile r = Some f ->
  let st1 :=
    {| ui := with_suggestedProduceKey None
               match suggestion_in_use useSuggestion r with
               | Some k => with_selectedProduceKey k (ui st)
               | None => ui st
               end;
       calls := calls st |} in
  handleSuggestion r useSuggestion st =
  match fileToBase64 f with
  | Some b64 =>
      continueAnalysis
        match suggestion_in_use useSuggestion r with
        | Some k => k
        | None => selectedProduceKey r
        end b64 (type f) st1
  | None => (Throw Rejection, st1)
  end.
Proof.
  intros Hfile st1. unfold handleSuggestion. rewrite Hfile. unfold st1.
  unfold await_fileToBase64.
  destruct (suggestion_in_use useSuggestion r); js_unfold;
    destruct (fileToBase64 f); js_unfold;
    try reflexivity;
    match goal with
    | |- context [continueAnalysis ?k ?d ?m ?s] =>
        destruct (continueAnalysis_settles k d m s) as [st' [E _]]; rewrite E; reflexivity
    end.
Qed.

(** C2. In a state with an image and a pending suggestion, where the
    suggested and the selected key are catalog keys and the image encodes:
    confirming sets the selected key to the suggested key and declining leaves
    it as it is; both clear the suggestion; then the prediction request is
    sent, for the label of the suggested produce when confirming and of the
    selected produce when declining.  The state logged with the request
    already has the new selected key and no suggestion. *)
Theorem handleSuggestion_proceeds (r : State) (useSuggestion : bool)
        (f : File) (k : ProduceKey) (suggested selected : ProduceItem) (b64 : string) :
  imageFile r = Some f ->
  suggestedProduceKey r = Some k ->
  k <> "" ->
  findProduce k = Some suggested ->
  selectedProduce r = Some selected ->
  fileToBase64 f = Some b64 ->
  let key := if useSuggestion then k else selectedProduceKey r in
  let produce := if useSuggestion then suggested else selected in
  exists st' at_call,
    run (handleSuggestion r useSuggestion) r = (Return tt, st') /\
    calls st' = [(at_call, PredictionRequest (type f) b64 (label produce))] /\
    findProduce key = Some produce /\
    selectedProduceKey at_call = key /\
    suggestedProduceKey at_call = None /\
    selectedProduceKey (ui st') = key /\
    suggestedProduceKey (ui st') = None /\
    isLoading (ui st') = false.
Proof.
  intros Hfile Hsug Hk Hfs Hsel Henc key produce.
  unfold run. rewrite (handleSuggestion_eq r useSuggestion f _ Hfile), Henc.
  unfold suggestion_in_use, truthy. rewrite Hsug.
  apply String.eqb_neq in Hk. rewrite Hk. cbn [negb].
  unfold key, produce. destruct useSuggestion; cbn [andb].
  - rewrite (continueAnalysis_found _ suggested _ _ _ Hfs). cbn [ui calls app].
    do 2 eexists. split; [reflexivity|]. split; [reflexivity|].
    split; [assumption|].
    destruct (accepted_prediction _); repeat split.
  - rewrite (continueAnalysis_found _ selected _ _ _ Hsel). cbn [ui calls app].
    do 2 eexists. split; [reflexivity|]. split; [reflexivity|].
    split; [assumption|].
    destruct (accepted_prediction _); repeat split.
Qed.

(** When the image cannot be encoded, [handleSuggestion] throws: the
    rejection leaves the handler, no request is sent and no message is set. *)
Lemma handleSuggestion_encoding_failure (r : State) (useSuggestion : bool) (f : File) :
  imageFile r = Some f ->
  fileToBase64 f = None ->
  exists st',
    run (handleSuggestion r useSuggestion) r = (Throw Rejection, st') /\
    error (ui st') = error r /\
    calls st' = [].
Proof.
  intros Hfile Henc. unfold run.
  rewrite (handleSuggestion_eq r useSuggestion f _ Hfile), Henc.
  eexists. split; [reflexivity|].
  destruct (suggestion_in_use useSuggestion r); split; reflexivity.
Qed.

(** *** Validation of the prediction *)

Lemma fails_top_level_rejected (t : string) (v : JSON) :
  JSON_parse (trim t) = Some v ->
  fails_top_level v ->
  accepted_prediction (Responded (Some t)) = None.
Proof.
  intros Hparse Hfail. unfold accepted_prediction. rewrite Hparse.
  destruct Hfail as [->|(k & ty & v' & Hin & Hget & Hty)]; [reflexivity|].
  assert (E : existsb (field_differs v) top_level_schema = true).
  { apply existsb_exists. exists (k, ty). split; [assumption|].
    unfold field_differs. cbn [fst snd]. rewrite Hget.
    apply negb_true_iff. now apply String.eqb_neq. }
  rewrite E. destruct v; reflexivity.
Qed.

(** A call that is rejected ends in the same error as a response that fails
    the validation. *)
Lemma getRipenessPrediction_call_failure (d m f : string) (st : Store) :
  generateContent (PredictionRequest m d f) = CallRejected ->
  getRipenessPrediction d m f st =
  (Throw (Error "Failed to get prediction from Gemini API."),
   log_call (PredictionRequest m d f) st).
Proof.
  intros H. rewrite getRipenessPrediction_eq, H. reflexivity.
Qed.

(** C3 as amended. When the response parses to [null] or to a value one of
    whose six top-level properties is absent or has the wrong [typeof],
    [getRipenessPrediction] throws the error with the message that it also
    uses for a failed call, and [continueAnalysis] stores no prediction: the
    prediction is left as it was, the analysis message is set and the loading
    flag is cleared. *)
Theorem getRipenessPrediction_rejects_top_level
        (k : ProduceKey) (p : ProduceItem) (d m t : string) (v : JSON) (st : Store) :
  findProduce k = Some p ->
  generateContent (PredictionRequest m d (label p)) = Responded (Some t) ->
  JSON_parse (trim t) = Some v ->
  fails_top_level v ->
  getRipenessPrediction d m (label p) st =
    (Throw (Error "Failed to get prediction from Gemini API."),
     log_call (PredictionRequest m d (label p)) st) /\
  exists st',
    continueAnalysis k d m st = (Return tt, st') /\
    prediction (ui st') = prediction (ui st) /\
    error (ui st') =
      Some "Failed to complete analysis. The model may be unavailable. Please try again later." /\
    isLoading (ui st') = false.
Proof.
  intros Hfind Hgen Hparse Hfail.
  pose proof (fails_top_level_rejected t v Hparse Hfail) as Hrej.
  split.
  - rewrite getRipenessPrediction_eq, Hgen, Hrej. reflexivity.
  - rewrite (continueAnalysis_found k p d m st Hfind), Hgen, Hrej.
    eexists. split; [reflexivity|]. repeat split.
Qed.

(** ** Further properties of the service *)





(** X3. [identifyProduce] sends exactly one request, whatever comes back, and
    it throws, always the same error, exactly when the call is rejected or
    the response has no text. *)
Theorem identifyProduce_single_request (d m : string) (st : Store) :
  snd (identifyProduce d m st) = log_call (IdentifyRequest m d allProduceNames) st /\
  (generateContent (IdentifyRequest m d allProduceNames) = CallRejected \/
   generateContent (IdentifyRequest m d allProduceNames) = Responded None <->
   fst (identifyProduce d m st) =
     Throw (Error "Failed to identify produce from Gemini API.")) /\
  (forall e, fst (identifyProduce d m st) = Throw e ->
             e = Error "Failed to identify produce from Gemini API.").
Proof.
  destruct (generateContent (IdentifyRequest m d allProduceNames)) as [|[t|]] eqn:Hgen.
  - rewrite identifyProduce_failed by (now left). cbn [fst snd].
    split; [reflexivity|].
    split; [split; intros _; [reflexivity | now left]|]. intros e H. now inversion H.
  - rewrite (identifyProduce_responded _ _ t _ Hgen). cbn [fst snd].
    split; [reflexivity|]. split.
    + split; [intros [H|H]; discriminate | discriminate].
    + intros e H. discriminate.
  - rewrite identifyProduce_failed by (now right). cbn [fst snd].
    split; [reflexivity|].
    split; [split; intros _; [reflexivity | now right]|]. intros e H. now inversion H.
Qed.

Lemma existsb_negb_forallb {A : Type} (f : A -> bool) (l : list A) :
  existsb (fun x => negb (f x)) l = negb (forallb f l).
Proof.
  induction l as [|x l IH]; simpl; [reflexivity|].
  rewrite IH. now destruct (f x).
Qed.

Lemma accepted_object (fields : list (string * JSON)) :
  existsb (field_differs (JObject fields)) top_level_schema =
  negb (has_fields top_level_schema fields).
Proof.
  unfold has_fields. rewrite <- existsb_negb_forallb. reflexivity.
Qed.

Lemma accepted_prediction_iff (response : GenResponse) (v : JSON) :
  accepted_prediction response = Some v <->
  exists t fields,
    response = Responded (Some t) /\
    JSON_parse (trim t) = Some v /\
    v = JObject fields /\
    has_fields top_level_schema fields = true.
Proof.
  unfold accepted_prediction. split.
  - destruct response as [|[t|]]; try discriminate.
    destruct (JSON_parse (trim t)) as [w|] eqn:Hparse; [|discriminate].
    destruct w; try discriminate.
    rewrite accepted_object.
    destruct (has_fields top_level_schema fields) eqn:Hf; [|discriminate].
    intros H. inversion H. subst v. now exists t, fields.
  - intros (t & fields & -> & Hparse & -> & Hf).
    rewrite Hparse, accepted_object, Hf. reflexivity.
Qed.

(** X4. [getRipenessPrediction] returns a value exactly when the call
    resolves with a text that parses to an object whose six top-level
    properties have the [typeof] the validation asks for; what it returns is
    that object.  So a stored prediction always has a numeric [days]. *)
Theorem getRipenessPrediction_returns_iff (d m f : string) (st : Store) (v : JSON) :
  fst (getRipenessPrediction d m f st) = Return v <->
  exists t fields,
    generateContent (PredictionRequest m d f) = Responded (Some t) /\
    JSON_parse (trim t) = Some v /\
    v = JObject fields /\
    has_fields top_level_schema fields = true.
Proof.
  rewrite getRipenessPrediction_eq. cbn [fst].
  rewrite <- accepted_prediction_iff.
  destruct (accepted_prediction _); split; intros H; try discriminate;
    inversion H; reflexivity.
Qed.

(** X5. [getRipenessPrediction] sends exactly one request, and every failure
    (a rejected call, a response without text, a text that does not parse, a
    value that fails the validation) leaves it as the same error. *)
Theorem getRipenessPrediction_single_request (d m f : string) (st : Store) :
  snd (getRipenessPrediction d m f st) = log_call (PredictionRequest m d f) st /\
  (forall e, fst (getRipenessPrediction d m f st) = Throw e ->
             e = Error "Failed to get prediction from Gemini API.") /\
  (generateContent (PredictionRequest m d f) = CallRejected \/
   generateContent (PredictionRequest m d f) = Responded None \/
   (exists t, generateContent (PredictionRequest m d f) = Responded (Some t) /\
              JSON_parse (trim t) = None) ->
   fst (getRipenessPrediction d m f st) =
     Throw (Error "Failed to get prediction from Gemini API.")).
Proof.
  rewrite getRipenessPrediction_eq. cbn [fst snd].
  split; [reflexivity|]. split.
  - destruct (accepted_prediction _); intros e H; [discriminate | now inversion H].
  - intros [H|[H|(t & H & Hparse)]]; rewrite H; cbn [accepted_prediction];
      [reflexivity | reflexivity |].
    now rewrite Hparse.
Qed.

Lemma conforms_has_fields (v : JSON) :
  conforms_to_schema v = true ->
  exists fields, v = JObject fields /\ has_fields top_level_schema fields = true.
Proof.
  destruct v; try discriminate. simpl. intros H.
  apply andb_true_iff in H. destruct H as [H _]. now exists fields.
Qed.

(** ** Further properties of the analysis *)

Lemma conforming_accepted (request : Request) (t : string) (v : JSON) :
  generateContent request = Responded (Some t) ->
  JSON_parse (trim t) = Some v ->
  conforms_to_schema v = true ->
  accepted_prediction (generateContent request) = Some v.
Proof.
  intros Hgen Hparse Hconf.
  destruct (conforms_has_fields v Hconf) as (fields & Hv & Hf).
  apply accepted_prediction_iff. now exists t, fields.
Qed.

(** X6. A response that follows the schema is stored: [continueAnalysis]
    sends the one prediction request and ends with the parsed value as the
    prediction, no error and the loading flag cleared. *)
Theorem continueAnalysis_stores_conforming
        (k : ProduceKey) (p : ProduceItem) (d m t : string) (v : JSON) (st : Store) :
  findProduce k = Some p ->
  generateContent (PredictionRequest m d (label p)) = Responded (Some t) ->
  JSON_parse (trim t) = Some v ->
  conforms_to_schema v = true ->
  exists st',
    continueAnalysis k d m st = (Return tt, st') /\
    prediction (ui st') = Some v /\
    error (ui st') = None /\
    isLoading (ui st') = false /\
    calls st' = (calls st ++ [(analyzing (ui st), PredictionRequest m d (label p))])%list.
Proof.
  intros Hfind Hgen Hparse Hconf.
  rewrite (continueAnalysis_found k p d m st Hfind).
  rewrite (conforming_accepted _ t v Hgen Hparse Hconf).
  eexists. split; [reflexivity|]. repeat split.
Qed.

(** X7. A key that is not in the catalog stops [continueAnalysis] before any
    request: it sets the invalid-produce message and clears the loading flag,
    and the prediction stays as it was. *)
Theorem continueAnalysis_unknown_key (k : ProduceKey) (d m : string) (st : Store) :
  (forall p, In p PRODUCE -> value p <> k) ->
  exists st',
    continueAnalysis k d m st = (Return tt, st') /\
    error (ui st') = Some "Invalid produce selected for analysis." /\
    isLoading (ui st') = false /\
    prediction (ui st') = prediction (ui st) /\
    calls st' = calls st.
Proof.
  intros Hall.
  assert (Hfind : findProduce k = None).
  { apply find_none_iff. intros p Hp. apply String.eqb_neq. now apply Hall. }
  rewrite (continueAnalysis_missing k d m st Hfind).
  eexists. split; [reflexivity|]. repeat split.
Qed.

(** X8. When identification resolves to the key that is selected,
    [startAnalysis] asks for no confirmation: the identification request is
    followed at once by the prediction request for the selected label, and no
    suggestion is pending at the end. *)
Theorem startAnalysis_same_produce (r : State) (fileToAnalyze : option File) (st : Store)
        (f : File) (p : ProduceItem) (b64 t : string) :
  js_or fileToAnalyze (imageFile r) = Some f ->
  selectedProduce r = Some p ->
  fileToBase64 f = Some b64 ->
  generateContent (IdentifyRequest (type f) b64 allProduceNames) = Responded (Some t) ->
  resolveProduce (trim t) = selectedProduceKey r ->
  selectedProduceKey r <> "None" ->
  exists st',
    startAnalysis r fileToAnalyze st = (Return tt, st') /\
    calls st' = (calls st ++
                 [(identifying (ui st), IdentifyRequest (type f) b64 allProduceNames);
                  (analyzing (identifying (ui st)), PredictionRequest (type f) b64 (label p))])%list /\
    suggestedProduceKey (ui st') = None /\
    isLoading (ui st') = false.
Proof.
  intros Hfile Hsel Henc Hgen Hres Hn.
  rewrite (startAnalysis_identified r fileToAnalyze st f p b64 t Hfile Hsel Henc Hgen).
  rewrite Hres. apply String.eqb_neq in Hn. rewrite Hn.
  rewrite String.eqb_refl, andb_false_r.
  rewrite (continueAnalysis_found _ p _ _ _ Hsel). cbn [ui calls].
  eexists. split; [reflexivity|]. cbn [ui calls].
  split; [now rewrite <- app_assoc|].
  destruct (accepted_prediction _); split; reflexivity.
Qed.

Lemma startAnalysis_caught (r : State) (fileToAnalyze : option File) (st : Store)
      (f : File) (p : ProduceItem) :
  js_or fileToAnalyze (imageFile r) = Some f ->
  selectedProduce r = Some p ->
  fileToBase64 f = None \/
  (exists b64, fileToBase64 f = Some b64 /\
     (generateContent (IdentifyRequest (type f) b64 allProduceNames) = CallRejected \/
      generateContent (IdentifyRequest (type f) b64 allProduceNames) = Responded None)) ->
  startAnalysis r fileToAnalyze st =
  (Return tt,
   {| ui := with_isLoading false
              (with_error (Some "An AI error occurred during identification. Please try again.")
                 (identifying (ui st)));
      calls := match fileToBase64 f with
               | Some b64 =>
                   calls st ++
                   [(identifying (ui st), IdentifyRequest (type f) b64 allProduceNames)]
               | None => calls st
               end |}).
Proof.
  intros Hfile Hsel H.
  unfold startAnalysis. rewrite Hfile, Hsel. js_unfold.
  unfold await_fileToBase64.
  destruct H as [Henc|(b64 & Henc & Hgen)]; rewrite Henc; js_unfold.
  - reflexivity.
  - rewrite identifyProduce_failed by assumption. reflexivity.
Qed.

(** X9. When the image cannot be encoded, the identification call is
    rejected or its response has no text, [startAnalysis] catches the failure:
    it ends with the identification message, no prediction, no suggestion and
    the loading flag cleared, and it has sent no prediction request (no
    request at all when the encoding failed). *)
Theorem startAnalysis_identification_failure
        (r : State) (fileToAnalyze : option File) (st : Store)
        (f : File) (p : ProduceItem) :
  js_or fileToAnalyze (imageFile r) = Some f ->
  selectedProduce r = Some p ->
  fileToBase64 f = None \/
  (exists b64, fileToBase64 f = Some b64 /\
     (generateContent (IdentifyRequest (type f) b64 allProduceNames) = CallRejected \/
      generateContent (IdentifyRequest (type f) b64 allProduceNames) = Responded None)) ->
  exists st',
    startAnalysis r fileToAnalyze st = (Return tt, st') /\
    error (ui st') = Some "An AI error occurred during identification. Please try again." /\
    prediction (ui st') = None /\
    suggestedProduceKey (ui st') = None /\
    isLoading (ui st') = false /\
    (fileToBase64 f = None -> calls st' = calls st) /\
    (forall b64, fileToBase64 f = Some b64 ->
       calls st' = (calls st ++
                    [(identifying (ui st), IdentifyRequest (type f) b64 allProduceNames)])%list).
Proof.
  intros Hfile Hsel H.
  rewrite (startAnalysis_caught r fileToAnalyze st f p Hfile Hsel H).
  eexists. split; [reflexivity|]. cbn [ui calls].
  repeat split.
  - intros Henc. now rewrite Henc.
  - intros b64 Henc. now rewrite Henc.
Qed.

(** X10. Past its guard [startAnalysis] always returns, with the loading flag
    cleared, the selected key and the image untouched, and exactly one of
    three things set: an error, a prediction, or a suggestion. *)
Theorem startAnalysis_one_outcome (r : State) (fileToAnalyze : option File) (st : Store)
        (f : File) (p : ProduceItem) :
  js_or fileToAnalyze (imageFile r) = Some f ->
  selectedProduce r = Some p ->
  exists st',
    startAnalysis r fileToAnalyze st = (Return tt, st') /\
    isLoading (ui st') = false /\
    selectedProduceKey (ui st') = selectedProduceKey (ui st) /\
    imageFile (ui st') = imageFile (ui st) /\
    ((exists msg, error (ui st') = Some msg /\
                  prediction (ui st') = None /\ suggestedProduceKey (ui st') = None) \/
     (exists v, prediction (ui st') = Some v /\
                error (ui st') = None /\ suggestedProduceKey (ui st') = None) \/
     (exists k, suggestedProduceKey (ui st') = Some k /\
                error (ui st') = None /\ prediction (ui st') = None)).
Proof.
  intros Hfile Hsel.
  destruct (fileToBase64 f) as [b64|] eqn:Henc.
  - destruct (generateContent (IdentifyRequest (type f) b64 allProduceNames))
      as [|[t|]] eqn:Hgen.
    + rewrite (startAnalysis_caught r fileToAnalyze st f p Hfile Hsel)
        by (right; exists b64; split; [assumption | now left]).
      eexists. split; [reflexivity|]. repeat split. left. eexists. repeat split.
    + rewrite (startAnalysis_identified r fileToAnalyze st f p b64 t Hfile Hsel Henc Hgen).
      destruct (resolveProduce (trim t) =? "None").
      { eexists. split; [reflexivity|]. repeat split. left. eexists. repeat split. }
      destruct (truthy _ && _).
      { eexists. split; [reflexivity|]. repeat split. right. right. eexists. repeat split. }
      rewrite (continueAnalysis_found _ p _ _ _ Hsel).
      eexists. split; [reflexivity|]. cbn [ui calls].
      destruct (accepted_prediction _) as [v|]; repeat split.
      * right. left. exists v. repeat split.
      * left. eexists. repeat split.
    + rewrite (startAnalysis_caught r fileToAnalyze st f p Hfile Hsel)
        by (right; exists b64; split; [assumption | now right]).
      eexists. split; [reflexivity|]. repeat split. left. eexists. repeat split.
  - rewrite (startAnalysis_caught r fileToAnalyze st f p Hfile Hsel) by (now left).
    eexists. split; [reflexivity|]. repeat split. left. eexists. repeat split.
Qed.

Lemma resolveProduce_blank (first : ProduceItem) (rest : list ProduceItem) :
  PRODUCE = first :: rest -> resolveProduce "" = value first.
Proof.
  intros H. unfold resolveProduce. rewrite H. cbn [toLowerCase String.eqb find].
  now rewrite includes_empty.
Qed.

(** X11. A blank answer names the first entry of the catalog: when the text
    of the identification response is empty or white space only,
    [identifyProduce] returns the key of the first catalog entry, and
    [startAnalysis] raises it as a suggestion whenever another produce is
    selected. *)
Theorem startAnalysis_blank_answer (r : State) (fileToAnalyze : option File) (st : Store)
        (f : File) (p first : ProduceItem) (rest : list ProduceItem) (b64 t : string) :
  js_or fileToAnalyze (imageFile r) = Some f ->
  selectedProduce r = Some p ->
  fileToBase64 f = Some b64 ->
  generateContent (IdentifyRequest (type f) b64 allProduceNames) = Responded (Some t) ->
  trim t = "" ->
  PRODUCE = first :: rest ->
  value first <> "None" ->
  value first <> "" ->
  value first <> selectedProduceKey r ->
  (forall st0, fst (identifyProduce b64 (type f) st0) = Return (value first)) /\
  exists st',
    startAnalysis r fileToAnalyze st = (Return tt, st') /\
    suggestedProduceKey (ui st') = Some (value first) /\
    error (ui st') = None /\
    isLoading (ui st') = false.
Proof.
  intros Hfile Hsel Henc Hgen Hblank Hcat HnN Hne Hns.
  pose proof (resolveProduce_blank first rest Hcat) as Hres.
  split.
  - intros st0. rewrite (identifyProduce_responded _ _ t _ Hgen), Hblank, Hres.
    reflexivity.
  - rewrite (startAnalysis_identified r fileToAnalyze st f p b64 t Hfile Hsel Henc Hgen).
    rewrite Hblank, Hres. unfold truthy.
    apply String.eqb_neq in HnN, Hne, Hns. rewrite HnN, Hne, Hns. cbn [negb andb].
    eexists. split; [reflexivity|]. repeat split.
Qed.

(** X12. Answering a suggestion ends the analysis: with the image encoded
    and a response that follows the schema, confirming leaves the suggested
    key selected and declining the old one, and both leave the parsed value as
    the prediction, no error, no suggestion and the loading flag cleared. *)
Theorem handleSuggestion_result (r : State) (useSuggestion : bool)
        (f : File) (k : ProduceKey) (suggested selected : ProduceItem)
        (b64 t : string) (v : JSON) :
  imageFile r = Some f ->
  suggestedProduceKey r = Some k ->
  k <> "" ->
  findProduce k = Some suggested ->
  selectedProduce r = Some selected ->
  fileToBase64 f = Some b64 ->
  generateContent
    (PredictionRequest (type f) b64 (label (if useSuggestion then suggested else selected))) =
    Responded (Some t) ->
  JSON_parse (trim t) = Some v ->
  conforms_to_schema v = true ->
  exists st',
    run (handleSuggestion r useSuggestion) r = (Return tt, st') /\
    prediction (ui st') = Some v /\
    error (ui st') = None /\
    selectedProduceKey (ui st') = (if useSuggestion then k else selectedProduceKey r) /\
    suggestedProduceKey (ui st') = None /\
    isLoading (ui st') = false.
Proof.
  intros Hfile Hsug Hk Hfs Hsel Henc Hgen Hparse Hconf.
  unfold run. rewrite (handleSuggestion_eq r useSuggestion f _ Hfile), Henc.
  unfold suggestion_in_use, truthy. rewrite Hsug.
  apply String.eqb_neq in Hk. rewrite Hk. cbn [negb].
  destruct useSuggestion; cbn [andb].
  - rewrite (continueAnalysis_found _ suggested _ _ _ Hfs).
    rewrite (conforming_accepted _ t v Hgen Hparse Hconf).
    eexists. split; [reflexivity|]. repeat split.
  - rewrite (continueAnalysis_found _ selected _ _ _ Hsel).
    rewrite (conforming_accepted _ t v Hgen Hparse Hconf).
    eexists. split; [reflexivity|]. repeat split.
Qed.

(** ** Selecting, searching and acquiring an image *)

Ltac handler_unfold :=
  cbv beta iota delta
    [bind ret throw try_catch try_finally modify orelse console_error
     setPrediction setIsLoading setLoadingText setError
     setSuggestedProduceKey setSelectedProduceKey resetAnalysisState
     setImageFile setImagePreviewUrl setIsCameraOpen setSearchText setIsSearchFocused
     handleClearImage clear_file_input];
  cbn [ui calls].

(** X13. Selecting another produce discards the image with its preview, the
    prediction, the error and the suggestion; selecting the produce that is
    already selected keeps them all.  Either way the key is selected, the
    search loses focus and no request is sent. *)
Theorem handleProduceSelect_discards (r : State) (k : ProduceKey) :
  exists st',
    run (handleProduceSelect r k) r = (Return tt, st') /\
    selectedProduceKey (ui st') = k /\
    isSearchFocused (ui st') = false /\
    calls st' = [] /\
    (k <> selectedProduceKey r ->
     imageFile (ui st') = None /\ imagePreviewUrl (ui st') = None /\
     prediction (ui st') = None /\ error (ui st') = None /\
     suggestedProduceKey (ui st') = None) /\
    (k = selectedProduceKey r ->
     imageFile (ui st') = imageFile r /\ imagePreviewUrl (ui st') = imagePreviewUrl r /\
     prediction (ui st') = prediction r /\ error (ui st') = error r /\
     suggestedProduceKey (ui st') = suggestedProduceKey r).
Proof.
  unfold run, handleProduceSelect.
  destruct (String.eqb_spec k (selectedProduceKey r)) as [Heq|Hne];
    cbn [negb]; handler_unfold;
    (eexists; split; [reflexivity|]);
    do 3 (split; [reflexivity|]);
    split; intros H; try contradiction; repeat split.
Qed.

(** X14. After another produce is selected, the effect of the next render
    sets the search text to the label of its catalog entry; when the produce
    already selected is selected again the effect does not run and the text
    typed in the search box stays. *)
Theorem select_then_searchText (r : State) (k : ProduceKey) (p : ProduceItem) :
  findProduce k = Some p ->
  exists st',
    run (then_searchText_effect r (handleProduceSelect r k)) r = (Return tt, st') /\
    selectedProduceKey (ui st') = k /\
    (k <> selectedProduceKey r -> searchText (ui st') = label p) /\
    (k = selectedProduceKey r -> searchText (ui st') = searchText r).
Proof.
  intros Hfind.
  unfold run, then_searchText_effect, handleProduceSelect, searchText_effect, selectedProduce.
  destruct (String.eqb_spec k (selectedProduceKey r)) as [Heq|Hne];
    cbn [negb]; handler_unfold; cbn [selectedProduceKey with_isSearchFocused
                                     with_selectedProduceKey].
  - rewrite <- Heq, String.eqb_refl. handler_unfold.
    eexists. split; [reflexivity|]. split; [reflexivity|].
    split; intros H; [contradiction | reflexivity].
  - assert (E : (selectedProduceKey r =? k) = false)
      by (apply String.eqb_neq; congruence).
    rewrite E, Hfind. handler_unfold.
    eexists. split; [reflexivity|]. split; [reflexivity|].
    split; intros H; [reflexivity | contradiction].
Qed.

(** X15. Giving focus to the search box empties the text, so the list under
    it is the whole catalog; nothing else changes. *)
Theorem handleSearchFocus_lists_catalog (r : State) :
  exists st',
    run handleSearchFocus r = (Return tt, st') /\
    filteredProduce (ui st') = PRODUCE /\
    searchText (ui st') = "" /\
    ui st' = with_searchText "" (with_isSearchFocused true r) /\
    calls st' = [].
Proof.
  unfold run, handleSearchFocus. handler_unfold.
  eexists. split; [reflexivity|]. cbn [ui calls].
  split; [|repeat split].
  unfold filteredProduce. cbn [isSearchFocused searchText with_searchText
                               with_isSearchFocused negb toLowerCase].
  apply filter_all. intros p _. apply includes_empty.
Qed.

(** X16. A press outside the search container ends the search: the list is
    empty and the text is the label of the selected produce again, whatever
    had been typed.  A press inside changes nothing. *)
Theorem handleClickOutside_restores (r : State) (p : ProduceItem) :
  selectedProduce r = Some p ->
  (exists st',
     run (handleClickOutside r true) r = (Return tt, st') /\
     filteredProduce (ui st') = [] /\
     searchText (ui st') = label p /\
     selectedProduceKey (ui st') = selectedProduceKey r) /\
  run (handleClickOutside r false) r = (Return tt, {| ui := r; calls := [] |}).
Proof.
  intros Hsel. split; [|reflexivity].
  unfold run, handleClickOutside. rewrite Hsel. handler_unfold.
  eexists. split; [reflexivity|]. repeat split.
Qed.

(** X17. Choosing a file puts it in the state with its preview and resets
    prediction, error and suggestion, leaving the selected produce and the
    loading flag alone; closing the file dialog without a file changes
    nothing. *)
Theorem handleImageUpload_resets (r : State) (file : File) :
  (exists st',
     run (handleImageUpload (Some file)) r = (Return tt, st') /\
     imageFile (ui st') = Some file /\
     imagePreviewUrl (ui st') = Some (createObjectURL browser file) /\
     prediction (ui st') = None /\
     error (ui st') = None /\
     suggestedProduceKey (ui st') = None /\
     selectedProduceKey (ui st') = selectedProduceKey r /\
     isLoading (ui st') = isLoading r /\
     calls st' = []) /\
  run (handleImageUpload None) r = (Return tt, {| ui := r; calls := [] |}).
Proof.
  split; [|reflexivity].
  unfold run, handleImageUpload. handler_unfold.
  eexists. split; [reflexivity|]. repeat split.
Qed.

(** X18. Removing the image leaves no image, preview, prediction, error or
    suggestion, whatever the state before; the analyze button is then
    disabled and the remove button is gone. *)
Theorem handleClearImage_idle (r : State) :
  exists st',
    run handleClearImage r = (Return tt, st') /\
    imageFile (ui st') = None /\
    imagePreviewUrl (ui st') = None /\
    prediction (ui st') = None /\
    error (ui st') = None /\
    suggestedProduceKey (ui st') = None /\
    selectedProduceKey (ui st') = selectedProduceKey r /\
    analyze_disabled (ui st') = true /\
    clear_image_offered (ui st') = false.
Proof.
  unfold run. handler_unfold.
  eexists. split; [reflexivity|]. repeat split.
Qed.

(** ** The camera *)

(** [startAnalysis] always returns, and it leaves alone the image, its
    preview, the camera flag and the selected key. *)
Lemma startAnalysis_frame (r : State) (fileToAnalyze : option File) (st : Store) :
  exists st',
    startAnalysis r fileToAnalyze st = (Return tt, st') /\
    imageFile (ui st') = imageFile (ui st) /\
    imagePreviewUrl (ui st') = imagePreviewUrl (ui st) /\
    isCameraOpen (ui st') = isCameraOpen (ui st) /\
    selectedProduceKey (ui st') = selectedProduceKey (ui st).
Proof.
  destruct (js_or fileToAnalyze (imageFile r)) as [f|] eqn:Hfile;
    [destruct (selectedProduce r) as [p|] eqn:Hsel|].
  - destruct (fileToBase64 f) as [b64|] eqn:Henc.
    + destruct (generateContent (IdentifyRequest (type f) b64 allProduceNames))
        as [|[t|]] eqn:Hgen.
      * rewrite (startAnalysis_caught r fileToAnalyze st f p Hfile Hsel)
          by (right; exists b64; split; [assumption | now left]).
        eexists. split; [reflexivity|]. repeat split.
      * rewrite (startAnalysis_identified r fileToAnalyze st f p b64 t Hfile Hsel Henc Hgen).
        destruct (resolveProduce (trim t) =? "None");
          [eexists; split; [reflexivity|]; repeat split|].
        destruct (truthy _ && _);
          [eexists; split; [reflexivity|]; repeat split|].
        rewrite (continueAnalysis_found _ p _ _ _ Hsel).
        eexists. split; [reflexivity|]. cbn [ui calls].
        destruct (accepted_prediction _); repeat split.
      * rewrite (startAnalysis_caught r fileToAnalyze st f p Hfile Hsel)
          by (right; exists b64; split; [assumption | now right]).
        eexists. split; [reflexivity|]. repeat split.
    + rewrite (startAnalysis_caught r fileToAnalyze st f p Hfile Hsel) by (now left).
      eexists. split; [reflexivity|]. repeat split.
  - unfold startAnalysis. rewrite Hfile, Hsel.
    eexists. split; [reflexivity|]. repeat split.
  - unfold startAnalysis. rewrite Hfile.
    eexists. split; [reflexivity|]. repeat split.
Qed.

(** With the camera ready and the frame captured, [handleCapture] is
    [startAnalysis] on the captured file, run from the state in which that
    file is the image and the camera is closed. *)
Lemma handleCapture_captured (r : State) (st : Store) :
  videoRef_current browser = true ->
  canvasRef_current browser = true ->
  canvas_getContext browser = true ->
  canvas_toBlob browser = true ->
  let capturedFile :=
    {| name := "capture_" ++ decimal (Date_now browser) ++ ".jpg";
       type := "image/jpeg" |} in
  handleCapture r st =
  startAnalysis r (Some capturedFile)
    {| ui := with_suggestedProduceKey None
               (with_error None
                  (with_prediction None
                     (with_isCameraOpen false
                        (with_imagePreviewUrl (Some (createObjectURL browser capturedFile))
                           (with_imageFile (Some capturedFile) (ui st))))));
       calls := calls st |}.
Proof.
  intros Hv Hc Hctx Hblob capturedFile.
  unfold handleCapture. rewrite Hv, Hc, Hctx, Hblob. cbn [negb orb].
  handler_unfold. fold capturedFile.
  match goal with
  | |- context [startAnalysis r (Some capturedFile) ?s] =>
      destruct (startAnalysis_frame r (Some capturedFile) s) as [st' [E _]]
  end.
  rewrite E. reflexivity.
Qed.

(** X19. When the video or the canvas is not attached, or the canvas gives no
    drawing context or no blob, [handleCapture] reports it and closes the
    camera: the image stays as it was and no request is sent. *)
Theorem handleCapture_failure (r : State) (st : Store) :
  (videoRef_current browser = false \/ canvasRef_current browser = false ->
   exists st',
     handleCapture r st = (Return tt, st') /\
     error (ui st') = Some "Camera is not ready. Please try again." /\
     isCameraOpen (ui st') = false /\
     imageFile (ui st') = imageFile (ui st) /\
     calls st' = calls st) /\
  (videoRef_current browser = true -> canvasRef_current browser = true ->
   canvas_getContext browser = false ->
   exists st',
     handleCapture r st = (Return tt, st') /\
     error (ui st') = Some "Failed to capture image: Could not get canvas context." /\
     isCameraOpen (ui st') = false /\
     imageFile (ui st') = imageFile (ui st) /\
     calls st' = calls st) /\
  (videoRef_current browser = true -> canvasRef_current browser = true ->
   canvas_getContext browser = true -> canvas_toBlob browser = false ->
   exists st',
     handleCapture r st = (Return tt, st') /\
     error (ui st') = Some "Failed to capture image: Could not create blob from canvas." /\
     isCameraOpen (ui st') = false /\
     imageFile (ui st') = imageFile (ui st) /\
     calls st' = calls st).
Proof.
  split; [|split].
  - intros H. unfold handleCapture.
    assert (E : negb (videoRef_current browser) || negb (canvasRef_current browser) = true).
    { destruct H as [H|H]; rewrite H; [reflexivity | apply orb_true_r]. }
    rewrite E. handler_unfold. eexists. split; [reflexivity|]. repeat split.
  - intros Hv Hc Hctx. unfold handleCapture. rewrite Hv, Hc, Hctx. cbn [negb orb].
    handler_unfold. eexists. split; [reflexivity|]. repeat split.
  - intros Hv Hc Hctx Hblob. unfold handleCapture. rewrite Hv, Hc, Hctx, Hblob.
    cbn [negb orb]. handler_unfold. eexists. split; [reflexivity|]. repeat split.
Qed.

(** X20. A captured frame is analysed at once, whatever image the render
    held: the file named after the clock, of type image/jpeg, becomes the
    image with its preview, the camera closes, and when the frame encodes
    the first request sent is the identification of that frame, in a state
    that already holds it. *)
Theorem handleCapture_analyses_frame (r : State) (st : Store) (p : ProduceItem) (b64 : string) :
  videoRef_current browser = true ->
  canvasRef_current browser = true ->
  canvas_getContext browser = true ->
  canvas_toBlob browser = true ->
  selectedProduce r = Some p ->
  let capturedFile :=
    {| name := "capture_" ++ decimal (Date_now browser) ++ ".jpg";
       type := "image/jpeg" |} in
  fileToBase64 capturedFile = Some b64 ->
  exists st' at_call later,
    handleCapture r st = (Return tt, st') /\
    imageFile (ui st') = Some capturedFile /\
    imagePreviewUrl (ui st') = Some (createObjectURL browser capturedFile) /\
    isCameraOpen (ui st') = false /\
    isLoading (ui st') = false /\
    calls st' = (calls st ++
                 (at_call, IdentifyRequest "image/jpeg" b64 allProduceNames) :: later)%list /\
    imageFile at_call = Some capturedFile /\
    isCameraOpen at_call = false /\
    isLoading at_call = true.
Proof.
  intros Hv Hc Hctx Hblob Hsel capturedFile Henc.
  rewrite (handleCapture_captured r st Hv Hc Hctx Hblob). fold capturedFile.
  set (st1 := {| ui := _; calls := calls st |}).
  assert (Hfile : js_or (Some capturedFile) (imageFile r) = Some capturedFile) by reflexivity.
  destruct (generateContent (IdentifyRequest (type capturedFile) b64 allProduceNames))
    as [|[t|]] eqn:Hgen.
  - rewrite (startAnalysis_caught r _ st1 capturedFile p Hfile Hsel)
      by (right; exists b64; split; [assumption | now left]).
    rewrite Henc. do 2 eexists. exists []. split; [reflexivity|]. repeat split.
  - rewrite (startAnalysis_identified r _ st1 capturedFile p b64 t Hfile Hsel Henc Hgen).
    destruct (resolveProduce (trim t) =? "None");
      [do 2 eexists; exists []; split; [reflexivity|]; repeat split|].
    destruct (truthy _ && _);
      [do 2 eexists; exists []; split; [reflexivity|]; repeat split|].
    rewrite (continueAnalysis_found _ p _ _ _ Hsel). cbn [ui calls].
    do 3 eexists. split; [reflexivity|]. cbn [ui calls].
    rewrite <- app_assoc. cbn [app].
    destruct (accepted_prediction _); repeat split.
  - rewrite (startAnalysis_caught r _ st1 capturedFile p Hfile Hsel)
      by (right; exists b64; split; [assumption | now right]).
    rewrite Henc. do 2 eexists. exists []. split; [reflexivity|]. repeat split.
Qed.

(** X21. [handleCapture] always returns and always leaves the camera
    closed. *)
Theorem handleCapture_closes_camera (r : State) (st : Store) :
  exists st',
    handleCapture r st = (Return tt, st') /\
    isCameraOpen (ui st') = false /\
    selectedProduceKey (ui st') = selectedProduceKey (ui st).
Proof.
  destruct (videoRef_current browser) eqn:Hv;
    [destruct (canvasRef_current browser) eqn:Hc;
     [destruct (canvas_getContext browser) eqn:Hctx;
      [destruct (canvas_toBlob browser) eqn:Hblob|]|]|].
  - rewrite (handleCapture_captured r st Hv Hc Hctx Hblob).
    match goal with
    | |- context [startAnalysis r ?a ?s] =>
        destruct (startAnalysis_frame r a s) as (st' & E & _ & _ & Hcam & Hkey)
    end.
    exists st'. split; [exact E|]. split; [exact Hcam | exact Hkey].
  - unfold handleCapture. rewrite Hv, Hc, Hctx, Hblob. cbn [negb orb].
    handler_unfold. eexists. split; [reflexivity|]. split; reflexivity.
  - unfold handleCapture. rewrite Hv, Hc, Hctx. cbn [negb orb].
    handler_unfold. eexists. split; [reflexivity|]. split; reflexivity.
  - unfold handleCapture. rewrite Hv, Hc. cbn [negb orb].
    handler_unfold. eexists. split; [reflexivity|]. split; reflexivity.
  - unfold handleCapture. rewrite Hv. cbn [negb orb].
    handler_unfold. eexists. split; [reflexivity|]. split; reflexivity.
Qed.

(** X22. The camera effect never throws: when the camera is open and the
    video is attached but the stream cannot be had or played, it sets the
    camera message and closes the camera; when the camera is closed it does
    nothing. *)
Theorem enableStream_failure (r : State) :
  (isCameraOpen r = true -> videoRef_current browser = true ->
   getUserMedia_resolves browser = false \/ video_play_resolves browser = false ->
   exists st',
     run (enableStream r) r = (Return tt, st') /\
     error (ui st') =
       Some "Could not access the camera. Please check browser permissions and ensure no other app is using it." /\
     isCameraOpen (ui st') = false /\
     calls st' = []) /\
  (isCameraOpen r = false ->
   run (enableStream r) r = (Return tt, {| ui := r; calls := [] |})) /\
  exists st', run (enableStream r) r = (Return tt, st').
Proof.
  unfold run, enableStream. split; [|split].
  - intros Hopen Hv H. rewrite Hopen, Hv. cbn [andb].
    destruct (getUserMedia_resolves browser) eqn:Hg.
    + destruct H as [H|H]; [discriminate|]. rewrite H. handler_unfold.
      eexists. split; [reflexivity|]. repeat split.
    + handler_unfold. eexists. split; [reflexivity|]. repeat split.
  - intros Hopen. rewrite Hopen. reflexivity.
  - destruct (isCameraOpen r && videoRef_current browser); [|eexists; reflexivity].
    destruct (getUserMedia_resolves browser); [destruct (video_play_resolves browser)|];
      handler_unfold; eexists; reflexivity.
Qed.

(** ** What the render offers after a suggestion *)

Lemma findProduce_In (q : ProduceItem) :
  In q PRODUCE -> exists q', findProduce (value q) = Some q' /\ value q' = value q.
Proof.
  intros Hin. unfold findProduce.
  destruct (find (fun p => value p =? value q) PRODUCE) as [q'|] eqn:E.
  - exists q'. split; [reflexivity|]. apply find_some in E. now apply String.eqb_eq.
  - pose proof (find_none _ _ E q Hin) as Hf. cbv beta in Hf.
    rewrite String.eqb_refl in Hf. discriminate.
Qed.

(** X23. While a suggestion raised by [startAnalysis] is pending, the render
    shows the suggestion box for a catalog entry with the suggested key,
    keeps the analyze button disabled and does not offer to remove the
    image. *)
Theorem suggestion_blocks_analysis (r : State) (fileToAnalyze : option File) (st : Store)
        (f : File) (p q : ProduceItem) (b64 t : string) :
  js_or fileToAnalyze (imageFile r) = Some f ->
  selectedProduce r = Some p ->
  fileToBase64 f = Some b64 ->
  generateContent (IdentifyRequest (type f) b64 allProduceNames) = Responded (Some t) ->
  In q PRODUCE ->
  resolveProduce (trim t) = value q ->
  value q <> "None" ->
  value q <> "" ->
  value q <> selectedProduceKey r ->
  exists st' q',
    startAnalysis r fileToAnalyze st = (Return tt, st') /\
    suggestedProduce (ui st') = Some q' /\
    value q' = value q /\
    suggestion_offered (ui st') = true /\
    analyze_disabled (ui st') = true /\
    clear_image_offered (ui st') = false.
Proof.
  intros Hfile Hsel Henc Hgen Hq Hres HnN Hne Hns.
  rewrite (startAnalysis_identified r fileToAnalyze st f p b64 t Hfile Hsel Henc Hgen).
  rewrite Hres. unfold truthy.
  destruct (findProduce_In q Hq) as (q' & Hfind & Hval).
  apply String.eqb_neq in HnN, Hne, Hns. rewrite HnN, Hne, Hns. cbn [negb andb].
  exists {| ui := with_isLoading false
                    (with_suggestedProduceKey (Some (value q)) (identifying (ui st)));
            calls := calls st ++
                     [(identifying (ui st), IdentifyRequest (type f) b64 allProduceNames)] |}, q'.
  split; [reflexivity|].
  unfold suggestion_offered, analyze_disabled, clear_image_offered, suggestedProduce.
  cbn [ui suggestedProduceKey with_isLoading with_suggestedProduceKey truthy_opt].
  unfold truthy. rewrite Hfind, Hne. cbn [negb is_some].
  repeat split; try assumption.
  - apply orb_true_r.
  - rewrite !andb_false_r. reflexivity.
Qed.

(** ** Further properties of the days text *)

Lemma round_tenths_unique (a : Q) (n : Z) :
  inject_Z n - (1 # 2) <= 10 * a ->
  10 * a < inject_Z n + (1 # 2) ->
  round_tenths a = n.
Proof.
  unfold round_tenths. destruct a as [p q].
  unfold Qle, Qlt, Qminus, Qplus, Qmult, Qopp, inject_Z. cbn [Qnum Qden].
  rewrite ?Pos2Z.inj_mul. intros Hlo Hhi.
  symmetry. apply (Z.div_unique_pos _ _ n (20 * p + Z.pos q - n * (2 * Z.pos q))); lia.
Qed.

Lemma decimal_digit (k : Z) :
  (0 <= k < 10)%Z -> String.length (decimal k) = 1%nat.
Proof.
  intros H.
  assert (E : (k = 0 \/ k = 1 \/ k = 2 \/ k = 3 \/ k = 4 \/ k = 5 \/ k = 6 \/
               k = 7 \/ k = 8 \/ k = 9)%Z) by lia.
  repeat (destruct E as [->|E]; [reflexivity|]). now subst.
Qed.

Lemma Qle_bool_false_lt (x y : Q) : y < x -> Qle_bool x y = false.
Proof.
  intros H. destruct (Qle_bool x y) eqn:E; [|reflexivity].
  apply Qle_bool_iff in E. exfalso. exact (Qlt_not_le _ _ H E).
Qed.

(** X24. Below 10^21 in size, what [toFixed(1)] prints is a minus sign for a
    negative number, then the integer part and exactly one digit of the
    integer [n] that is nearest to ten times the absolute value, the larger
    one on a tie. *)
Theorem toFixed1_nearest_tenth (x : Q) :
  Qabs x < ten_pow_21 ->
  exists n,
    toFixed1 Number_toString x =
      (if Qltb x 0 then "-" else "") ++ decimal (n / 10) ++ "." ++ decimal (n mod 10) /\
    (0 <= n)%Z /\
    String.length (decimal (n mod 10)) = 1%nat /\
    inject_Z n - (1 # 2) <= 10 * Qabs x /\
    10 * Qabs x < inject_Z n + (1 # 2).
Proof.
  intros Hsmall. exists (round_tenths (Qabs x)).
  unfold toFixed1. rewrite (Qle_bool_false_lt _ _ Hsmall).
  split; [reflexivity|].
  destruct (round_tenths_nearest (Qabs x)) as [Hlo Hhi].
  split; [|split; [|split; assumption]].
  - unfold round_tenths. apply Z.div_pos; [|lia].
    pose proof (Qabs_nonneg x) as Hx. unfold Qle in Hx. cbn in Hx. lia.
  - apply decimal_digit. apply Z.mod_pos_bound. lia.
Qed.

Lemma toFixed1_rounds_to (x : Q) (n : Z) :
  Qabs x < ten_pow_21 ->
  inject_Z n - (1 # 2) <= 10 * Qabs x ->
  10 * Qabs x < inject_Z n + (1 # 2) ->
  toFixed1 Number_toString x =
    (if Qltb x 0 then "-" else "") ++ decimal (n / 10) ++ "." ++ decimal (n mod 10).
Proof.
  intros Hsmall Hlo Hhi. unfold toFixed1.
  rewrite (Qle_bool_false_lt _ _ Hsmall), (round_tenths_unique _ n Hlo Hhi).
  reflexivity.
Qed.

(** C8 as amended.  For every finite days value below 10^21 in size, the
    days text shows the value to one decimal place: with [n] the integer
    nearest to ten times the absolute value, the larger one on a tie, it is
    the integer part of [n / 10], a point and the one last digit of [n],
    followed by [days] when [days > 1], by [days (Ready!)] when
    [0 <= days <= 1], and preceded by a minus sign and followed by
    [days (Past Peak)] when [days < 0].  So -2.0 gives
    [-2.0 days (Past Peak)], 0.5 gives [0.5 days (Ready!)] and 3.2, as the
    exact decimal and as the nearest double, gives [3.2 days]. *)
Theorem getDaysText_one_decimal (days : Q) :
  (Qabs days < ten_pow_21 ->
   exists n : Z,
     (0 <= n)%Z /\
     inject_Z n - (1 # 2) <= 10 * Qabs days /\
     10 * Qabs days < inject_Z n + (1 # 2) /\
     String.length (decimal (n mod 10)) = 1%nat /\
     (1 < days ->
      getDaysText days = decimal (n / 10) ++ "." ++ decimal (n mod 10) ++ " days") /\
     (0 <= days /\ days <= 1 ->
      getDaysText days =
        decimal (n / 10) ++ "." ++ decimal (n mod 10) ++ " days (Ready!)") /\
     (days < 0 ->
      getDaysText days =
        "-" ++ decimal (n / 10) ++ "." ++ decimal (n mod 10) ++ " days (Past Peak)")) /\
  getDaysText (-2 # 1) = "-2.0 days (Past Peak)" /\
  getDaysText (1 # 2) = "0.5 days (Ready!)" /\
  getDaysText (16 # 5) = "3.2 days" /\
  getDaysText Sample.double_3_2 = "3.2 days".
Proof.
  split; [|repeat split; vm_compute; reflexivity].
  intros Hsmall. exists (round_tenths (Qabs days)).
  destruct (round_tenths_nearest (Qabs days)) as [Hlo Hhi].
  split; [|split; [exact Hlo|split; [exact Hhi|split]]].
  - unfold round_tenths. apply Z.div_pos; [|lia].
    pose proof (Qabs_nonneg days) as Hx. unfold Qle in Hx. cbn in Hx. lia.
  - apply decimal_digit. apply Z.mod_pos_bound. lia.
  - rewrite getDaysText_finite, (toFixed1_rounds_to days _ Hsmall Hlo Hhi).
    split; [|split].
    + intros H.
      assert (H0 : 0 <= days).
      { apply Qlt_le_weak. apply Qlt_trans with 1; [reflexivity | assumption]. }
      rewrite (proj2 (Qltb_lt 1 days) H), (proj2 (Qltb_ge days 0) H0).
      cbn [append]. now rewrite !append_assoc.
    + intros [H0 H1].
      rewrite (proj2 (Qltb_ge 1 days) H1), (proj2 (Qltb_ge days 0) H0).
      rewrite (proj2 (Qle_bool_iff 0 days) H0), (proj2 (Qle_bool_iff days 1) H1).
      cbn [andb append]. now rewrite !append_assoc.
    + intros H.
      assert (H1 : Qltb 1 days = false).
      { apply Qltb_ge. apply Qlt_le_weak. apply Qlt_trans with 0; [assumption | reflexivity]. }
      rewrite H1, (Qle_bool_false_lt _ _ H), (proj2 (Qltb_lt days 0) H).
      cbn [andb]. now rewrite !append_assoc.
Qed.

Ltac q_arith := unfold inject_Z in *; lra.

(** X25. Rounding at the edges of the three cases: a loss of less than a
    twentieth of a day prints as [-0.0 days (Past Peak)]; from 0.95 up to 1
    day the text is [1.0 days (Ready!)], and just above 1 day, below 1.05,
    it is [1.0 days] without the mark. *)
Theorem getDaysText_edges (days : Q) :
  (-(1 # 20) < days -> days < 0 -> getDaysText days = "-0.0 days (Past Peak)") /\
  ((19 # 20) <= days -> days <= 1 -> getDaysText days = "1.0 days (Ready!)") /\
  (1 < days -> days < (21 # 20) -> getDaysText days = "1.0 days").
Proof.
  split; [|split].
  - intros Hlo Hhi. rewrite getDaysText_finite.
    assert (H1 : Qltb 1 days = false).
    { apply Qltb_ge. apply Qlt_le_weak. apply Qlt_trans with 0; [assumption | reflexivity]. }
    rewrite H1, (Qle_bool_false_lt _ _ Hhi). cbn [andb].
    rewrite (toFixed1_rounds_to days 0).
    + apply Qltb_lt in Hhi. rewrite Hhi. reflexivity.
    + rewrite Qabs_neg by (now apply Qlt_le_weak). clear H1. apply Qlt_trans with 2; [q_arith | reflexivity].
    + rewrite Qabs_neg by (now apply Qlt_le_weak). clear H1. q_arith.
    + rewrite Qabs_neg by (now apply Qlt_le_weak). clear H1. q_arith.
  - intros Hlo Hhi. rewrite getDaysText_finite.
    assert (H0 : 0 <= days) by (apply Qle_trans with (19 # 20); [discriminate | assumption]).
    rewrite (proj2 (Qltb_ge 1 days) Hhi).
    rewrite (proj2 (Qle_bool_iff 0 days) H0), (proj2 (Qle_bool_iff days 1) Hhi). cbn [andb].
    rewrite (toFixed1_rounds_to days 10).
    + rewrite (proj2 (Qltb_ge days 0) H0). reflexivity.
    + rewrite Qabs_pos by assumption. apply Qlt_trans with 2; [q_arith | reflexivity].
    + rewrite Qabs_pos by assumption. q_arith.
    + rewrite Qabs_pos by assumption. q_arith.
  - intros Hlo Hhi. rewrite getDaysText_finite.
    assert (H0 : 0 <= days).
    { apply Qlt_le_weak. apply Qlt_trans with 1; [reflexivity | assumption]. }
    rewrite (proj2 (Qltb_lt 1 days) Hlo).
    rewrite (toFixed1_rounds_to days 10).
    + rewrite (proj2 (Qltb_ge days 0) H0). reflexivity.
    + rewrite Qabs_pos by assumption. apply Qlt_trans with 2; [q_arith | reflexivity].
    + rewrite Qabs_pos by assumption. q_arith.
    + rewrite Qabs_pos by assumption. q_arith.
Qed.

(** ** Reading the data URL *)

Lemma no_sep_cons (c : ascii) (s : string) :
  includes (String c s) "," = false -> Ascii.eqb c "," = false /\ includes s "," = false.
Proof.
  rewrite includes_cons. intros H. apply orb_false_iff in H. destruct H as [Hp Hi].
  split; [|assumption].
  destruct (Ascii.eqb_spec c ","%char) as [->|Hne]; [|reflexivity].
  assert (E : prefix "," (String "," s) = true) by (apply prefix_iff; now exists s).
  congruence.
Qed.

Lemma split_head_no_sep (s : string) :
  includes s "," = false -> split_head "," s = s.
Proof.
  induction s as [|c s IH]; intros H; [reflexivity|].
  apply no_sep_cons in H. destruct H as [Hc Hs].
  simpl. rewrite Hc. f_equal. now apply IH.
Qed.

Lemma split_tail_no_sep (s : string) :
  includes s "," = false -> split_tail "," s = None.
Proof.
  induction s as [|c s IH]; intros H; [reflexivity|].
  apply no_sep_cons in H. destruct H as [Hc Hs].
  simpl. rewrite Hc. now apply IH.
Qed.

Lemma split_tail_first (prefix rest : string) :
  includes prefix "," = false ->
  split_tail "," (prefix ++ "," ++ rest) = Some rest.
Proof.
  induction prefix as [|c prefix IH]; intros H; [reflexivity|].
  apply no_sep_cons in H. destruct H as [Hc Hs].
  simpl. rewrite Hc. now apply IH.
Qed.

(** X26. [fileToBase64] strips the header of the data URL: of a result made
    of a header without comma, a comma and a payload without comma it keeps
    the payload; of a result with no comma at all it keeps nothing and
    resolves to [undefined]. *)
Theorem fileToBase64_resolved_payload (header payload : string) :
  includes header "," = false ->
  (includes payload "," = false ->
   fileToBase64_resolved (header ++ "," ++ payload) = Some payload) /\
  fileToBase64_resolved header = None.
Proof.
  intros Hh. unfold fileToBase64_resolved, split_second. split.
  - intros Hp. rewrite (split_tail_first header payload Hh).
    now rewrite (split_head_no_sep payload Hp).
  - now rewrite (split_tail_no_sep header Hh).
Qed.

End App.

(** ** The sample environment, run *)

(** C1, at the sample: apple is selected and the model answers Banana. *)
Lemma startAnalysis_suggestion_witness :
  exists st',
    run (startAnalysis Sample.catalog Sample.encode
           (Sample.model (Responded (Some "Banana")) CallRejected)
           (Sample.parses_to Sample.well_formed) Sample.imageReady None)
        Sample.imageReady = (Return tt, st') /\
    suggestedProduceKey (ui st') = Some "banana" /\
    isLoading (ui st') = false /\
    error (ui st') = None /\
    List.length (calls st') = 1%nat /\
    ui st' = Sample.suggestionPending.
Proof.
  destruct (startAnalysis_suggestion Sample.catalog Sample.encode
              (Sample.model (Responded (Some "Banana")) CallRejected)
              (Sample.parses_to Sample.well_formed) Sample.imageReady None
              {| ui := Sample.imageReady; calls := [] |}
              Sample.photo Sample.apple Sample.banana "QUJD" "Banana")
    as (st' & E & Hs & Hl & He & _ & _ & Hc);
    try reflexivity; try (vm_compute; discriminate).
  - right. left. reflexivity.
  - exists st'. repeat split; try assumption.
    + rewrite Hc. reflexivity.
    + unfold run in E. vm_compute in E. now inversion E.
Defined.

(** C2, at the sample: the pending suggestion is declined. *)
Lemma handleSuggestion_proceeds_witness :
  exists st' at_call,
    run (handleSuggestion Sample.catalog Sample.encode
           (Sample.model CallRejected (Responded (Some "(diagnosis)")))
           (Sample.parses_to Sample.well_formed) Sample.suggestionPending false)
        Sample.suggestionPending = (Return tt, st') /\
    calls st' = [(at_call, PredictionRequest "image/jpeg" "QUJD" "Apple")] /\
    selectedProduceKey at_call = "apple" /\
    suggestedProduceKey at_call = None.
Proof.
  destruct (handleSuggestion_proceeds Sample.catalog Sample.encode
              (Sample.model CallRejected (Responded (Some "(diagnosis)")))
              (Sample.parses_to Sample.well_formed) Sample.suggestionPending false
              Sample.photo "banana" Sample.banana Sample.apple "QUJD")
    as (st' & at_call & E & Hc & _ & Hk & Hs & _);
    try reflexivity; try (vm_compute; discriminate).
  exists st', at_call. repeat split; assumption.
Defined.

(** C3: a response whose [infection_details] is the empty object breaks the
    schema, is returned all the same and is stored as the prediction; and a
    response without [status] ends in the very error of a rejected call. *)
Lemma getRipenessPrediction_accepts_missing_details :
  conforms_to_schema Sample.no_details = false /\
  fst (run (getRipenessPrediction
              (Sample.model CallRejected (Responded (Some "(diagnosis)")))
              (Sample.parses_to Sample.no_details) "QUJD" "image/jpeg" "Apple")
           Sample.imageReady) = Return Sample.no_details /\
  prediction
    (ui (snd (run (continueAnalysis Sample.catalog
                     (Sample.model CallRejected (Responded (Some "(diagnosis)")))
                     (Sample.parses_to Sample.no_details) "apple" "QUJD" "image/jpeg")
                  Sample.imageReady))) = Some Sample.no_details /\
  conforms_to_schema Sample.no_status = false /\
  fst (run (getRipenessPrediction
              (Sample.model CallRejected (Responded (Some "(diagnosis)")))
              (Sample.parses_to Sample.no_status) "QUJD" "image/jpeg" "Apple")
           Sample.imageReady) =
  fst (run (getRipenessPrediction
              (Sample.model CallRejected CallRejected)
              (Sample.parses_to Sample.no_status) "QUJD" "image/jpeg" "Apple")
           Sample.imageReady).
Proof.
  repeat split; vm_compute; reflexivity.
Qed.

(** C3 as amended, at the sample: the response has no [status]. *)
Lemma getRipenessPrediction_rejects_top_level_witness :
  exists st',
    run (continueAnalysis Sample.catalog
           (Sample.model CallRejected (Responded (Some "(diagnosis)")))
           (Sample.parses_to Sample.no_status) "apple" "QUJD" "image/jpeg")
        Sample.imageReady = (Return tt, st') /\
    prediction (ui st') = None /\
    isLoading (ui st') = false.
Proof.
  destruct (getRipenessPrediction_rejects_top_level Sample.catalog
              (Sample.model CallRejected (Responded (Some "(diagnosis)")))
              (Sample.parses_to Sample.no_status)
              "apple" Sample.apple "QUJD" "image/jpeg" "(diagnosis)" Sample.no_status
              {| ui := Sample.imageReady; calls := [] |})
    as (_ & st' & E & Hp & _ & Hl); try reflexivity.
  - right. exists "status", "string", None.
    split; [right; left; reflexivity|]. split; [reflexivity | vm_compute; discriminate].
  - exists st'. repeat split; assumption.
Defined.



(** C5, at the sample: the model answers none in upper case. *)
Lemma startAnalysis_none_recognized_witness :
  exists st',
    run (startAnalysis Sample.catalog Sample.encode
           (Sample.model (Responded (Some "NONE")) CallRejected)
           (Sample.parses_to Sample.well_formed) Sample.imageReady None)
        Sample.imageReady = (Return tt, st') /\
    error (ui st') =
      Some "No recognizable fruit or vegetable was found. Please try another photo." /\
    prediction (ui st') = None /\
    isLoading (ui st') = false /\
    List.length (calls st') = 1%nat.
Proof.
  destruct (startAnalysis_none_recognized Sample.catalog Sample.encode
              (Sample.model (Responded (Some "NONE")) CallRejected)
              (Sample.parses_to Sample.well_formed) Sample.imageReady None
              {| ui := Sample.imageReady; calls := [] |}
              Sample.photo Sample.apple "QUJD" "NONE")
    as (st' & E & He & Hp & _ & Hl & Hc); try reflexivity.
  exists st'. repeat split; try assumption. rewrite Hc. reflexivity.
Defined.

(** C6, at the sample: no image has been chosen. *)
Lemma startAnalysis_missing_input_witness :
  exists st',
    run (startAnalysis Sample.catalog Sample.encode
           (Sample.model (Responded (Some "Apple")) CallRejected)
           (Sample.parses_to Sample.well_formed) Sample.idle None)
        Sample.idle = (Return tt, st') /\
    error (ui st') = Some "Please select a produce item and an image first." /\
    calls st' = [] /\
    isLoading (ui st') = false.
Proof.
  destruct (startAnalysis_missing_input Sample.catalog Sample.encode
              (Sample.model (Responded (Some "Apple")) CallRejected)
              (Sample.parses_to Sample.well_formed) Sample.idle None
              {| ui := Sample.idle; calls := [] |})
    as (st' & E & He & Hc & Hl & _); [left; reflexivity|].
  exists st'. repeat split; assumption.
Defined.

(** C8: at 10^21 days the text is what [Number::toString] prints, not the
    value to one decimal place, whose integer [n] would be 10^22; and an
    infinite days value, which a response such as 1e999 gives, is shown as
    Infinity. *)
Lemma getDaysText_not_one_decimal :
  1 < ten_pow_21 /\
  getDaysText Sample.number_toString ten_pow_21 = "1e+21 days" /\
  (forall n : Z,
     inject_Z n - (1 # 2) <= 10 * ten_pow_21 ->
     10 * ten_pow_21 < inject_Z n + (1 # 2) ->
     getDaysText Sample.number_toString ten_pow_21 <>
       decimal (n / 10) ++ "." ++ decimal (n mod 10) ++ " days") /\
  getDaysText Sample.number_toString PosInfinity = "Infinity days" /\
  getDaysText Sample.number_toString NegInfinity = "-Infinity days (Past Peak)".
Proof.
  split; [reflexivity|]. split; [reflexivity|]. split; [|split; reflexivity].
  intros n Hlo Hhi.
  rewrite <- (round_tenths_unique ten_pow_21 n Hlo Hhi).
  vm_compute. discriminate.
Qed.

(** C8 as amended, at 4.26 days. *)
Lemma getDaysText_one_decimal_witness :
  exists n : Z,
    inject_Z n - (1 # 2) <= 10 * (426 # 100) /\
    10 * (426 # 100) < inject_Z n + (1 # 2) /\
    getDaysText Sample.number_toString (426 # 100) =
      decimal (n / 10) ++ "." ++ decimal (n mod 10) ++ " days" /\
    getDaysText Sample.number_toString (426 # 100) = "4.3 days".
Proof.
  destruct (proj1 (getDaysText_one_decimal Sample.number_toString (426 # 100)) eq_refl)
    as (n & _ & Hlo & Hhi & _ & Hplain & _).
  exists n. split; [exact Hlo|]. split; [exact Hhi|].
  split; [apply Hplain; reflexivity | reflexivity].
Defined.




(** C7: in the sample state with a pending suggestion and an image that
    cannot be read, confirming and declining both end in an uncaught
    rejection: no message is set and no request is sent.  The same failure in
    [startAnalysis] is caught and reported. *)
Theorem handleSuggestion_encoding_failure_uncaught :
  (forall useSuggestion,
     exists st',
       run (handleSuggestion Sample.catalog Sample.encode_fails
              (Sample.model CallRejected CallRejected)
              (Sample.parses_to Sample.well_formed) Sample.suggestionPending useSuggestion)
           Sample.suggestionPending = (Throw Rejection, st') /\
       error (ui st') = None /\
       suggestedProduceKey (ui st') = None /\
       calls st' = []) /\
  exists st',
    run (startAnalysis Sample.catalog Sample.encode_fails
           (Sample.model CallRejected CallRejected)
           (Sample.parses_to Sample.well_formed) Sample.imageReady None)
        Sample.imageReady = (Return tt, st') /\
    error (ui st') = Some "An AI error occurred during identification. Please try again." /\
    isLoading (ui st') = false.
Proof.
  split.
  - intros [|]; eexists; (split; [vm_compute; reflexivity|]); repeat split.
  - eexists. split; [vm_compute; reflexivity|]. repeat split.
Qed.

(** ** The further properties, run on the sample *)



(** X3: the identification call is rejected. *)
Lemma identifyProduce_single_request_witness :
  fst (run (identifyProduce Sample.catalog (Sample.model CallRejected CallRejected)
              "QUJD" "image/jpeg")
           Sample.imageReady) =
    Throw (Error "Failed to identify produce from Gemini API.").
Proof.
  apply (proj1 (proj1 (proj2 (identifyProduce_single_request Sample.catalog
                                (Sample.model CallRejected CallRejected)
                                "QUJD" "image/jpeg"
                                {| ui := Sample.imageReady; calls := [] |})))).
  left. reflexivity.
Defined.

(** X4: the response follows the schema. *)
Lemma getRipenessPrediction_returns_iff_witness :
  fst (run (getRipenessPrediction
              (Sample.model CallRejected (Responded (Some "(diagnosis)")))
              (Sample.parses_to Sample.well_formed) "QUJD" "image/jpeg" "Apple")
           Sample.imageReady) = Return Sample.well_formed.
Proof.
  apply (proj2 (getRipenessPrediction_returns_iff
                  (Sample.model CallRejected (Responded (Some "(diagnosis)")))
                  (Sample.parses_to Sample.well_formed) "QUJD" "image/jpeg" "Apple"
                  {| ui := Sample.imageReady; calls := [] |} Sample.well_formed)).
  eexists. eexists. split; [reflexivity|]. split; [reflexivity|].
  split; reflexivity.
Defined.

(** X5: the response has no text. *)
Lemma getRipenessPrediction_single_request_witness :
  fst (run (getRipenessPrediction
              (Sample.model CallRejected (Responded None))
              (Sample.parses_to Sample.well_formed) "QUJD" "image/jpeg" "Apple")
           Sample.imageReady) =
    Throw (Error "Failed to get prediction from Gemini API.").
Proof.
  apply (proj2 (proj2 (getRipenessPrediction_single_request
                         (Sample.model CallRejected (Responded None))
                         (Sample.parses_to Sample.well_formed) "QUJD" "image/jpeg" "Apple"
                         {| ui := Sample.imageReady; calls := [] |}))).
  right. left. reflexivity.
Defined.

(** X6: the diagnosis of the apple is stored. *)
Lemma continueAnalysis_stores_conforming_witness :
  exists st',
    run (continueAnalysis Sample.catalog
           (Sample.model CallRejected (Responded (Some "(diagnosis)")))
           (Sample.parses_to Sample.well_formed) "apple" "QUJD" "image/jpeg")
        Sample.imageReady = (Return tt, st') /\
    prediction (ui st') = Some Sample.well_formed /\
    error (ui st') = None.
Proof.
  destruct (continueAnalysis_stores_conforming Sample.catalog
              (Sample.model CallRejected (Responded (Some "(diagnosis)")))
              (Sample.parses_to Sample.well_formed)
              "apple" Sample.apple "QUJD" "image/jpeg" "(diagnosis)" Sample.well_formed
              {| ui := Sample.imageReady; calls := [] |}
              eq_refl eq_refl eq_refl eq_refl)
    as (st' & E & Hp & He & _).
  exists st'. repeat split; assumption.
Defined.

(** X7: durian is not in the sample catalog. *)
Lemma continueAnalysis_unknown_key_witness :
  exists st',
    run (continueAnalysis Sample.catalog
           (Sample.model CallRejected (Responded (Some "(diagnosis)")))
           (Sample.parses_to Sample.well_formed) "durian" "QUJD" "image/jpeg")
        Sample.imageReady = (Return tt, st') /\
    error (ui st') = Some "Invalid produce selected for analysis." /\
    calls st' = [].
Proof.
  destruct (continueAnalysis_unknown_key Sample.catalog
              (Sample.model CallRejected (Responded (Some "(diagnosis)")))
              (Sample.parses_to Sample.well_formed) "durian" "QUJD" "image/jpeg"
              {| ui := Sample.imageReady; calls := [] |})
    as (st' & E & He & _ & _ & Hc).
  - intros p [<-|[<-|[<-|[]]]]; discriminate.
  - exists st'. repeat split; assumption.
Defined.

(** X8: apple is selected and the model answers Apple. *)
Lemma startAnalysis_same_produce_witness :
  exists st',
    run (startAnalysis Sample.catalog Sample.encode
           (Sample.model (Responded (Some "Apple")) (Responded (Some "(diagnosis)")))
           (Sample.parses_to Sample.well_formed) Sample.imageReady None)
        Sample.imageReady = (Return tt, st') /\
    List.length (calls st') = 2%nat /\
    suggestedProduceKey (ui st') = None.
Proof.
  destruct (startAnalysis_same_produce Sample.catalog Sample.encode
              (Sample.model (Responded (Some "Apple")) (Responded (Some "(diagnosis)")))
              (Sample.parses_to Sample.well_formed) Sample.imageReady None
              {| ui := Sample.imageReady; calls := [] |}
              Sample.photo Sample.apple "QUJD" "Apple"
              eq_refl eq_refl eq_refl eq_refl eq_refl)
    as (st' & E & Hc & Hs & _).
  - discriminate.
  - exists st'. split; [exact E|]. split; [now rewrite Hc | exact Hs].
Defined.

(** X9: the image cannot be read. *)
Lemma startAnalysis_identification_failure_witness :
  exists st',
    run (startAnalysis Sample.catalog Sample.encode_fails
           (Sample.model (Responded (Some "Apple")) CallRejected)
           (Sample.parses_to Sample.well_formed) Sample.imageReady None)
        Sample.imageReady = (Return tt, st') /\
    error (ui st') = Some "An AI error occurred during identification. Please try again." /\
    calls st' = [].
Proof.
  destruct (startAnalysis_identification_failure Sample.catalog Sample.encode_fails
              (Sample.model (Responded (Some "Apple")) CallRejected)
              (Sample.parses_to Sample.well_formed) Sample.imageReady None
              {| ui := Sample.imageReady; calls := [] |}
              Sample.photo Sample.apple eq_refl eq_refl (or_introl eq_refl))
    as (st' & E & He & _ & _ & _ & Hc & _).
  exists st'. split; [exact E|]. split; [exact He|]. now apply Hc.
Defined.

(** X10: the prediction call is rejected after a matching identification. *)
Lemma startAnalysis_one_outcome_witness :
  exists st',
    run (startAnalysis Sample.catalog Sample.encode
           (Sample.model (Responded (Some "Apple")) CallRejected)
           (Sample.parses_to Sample.well_formed) Sample.resultReady None)
        Sample.resultReady = (Return tt, st') /\
    isLoading (ui st') = false /\
    prediction (ui st') = None /\
    error (ui st') =
      Some "Failed to complete analysis. The model may be unavailable. Please try again later.".
Proof.
  destruct (startAnalysis_one_outcome Sample.catalog Sample.encode
              (Sample.model (Responded (Some "Apple")) CallRejected)
              (Sample.parses_to Sample.well_formed) Sample.resultReady None
              {| ui := Sample.resultReady; calls := [] |}
              Sample.photo Sample.apple eq_refl eq_refl)
    as (st' & E & Hl & _).
  exists st'. split; [exact E|]. split; [exact Hl|].
  unfold run in E. vm_compute in E. inversion E. split; reflexivity.
Defined.

(** X11: banana is selected and the model answers with white space only. *)
Lemma startAnalysis_blank_answer_witness :
  exists st',
    run (startAnalysis Sample.catalog Sample.encode
           (Sample.model (Responded (Some "  ")) CallRejected)
           (Sample.parses_to Sample.well_formed)
           (with_selectedProduceKey "banana" Sample.imageReady) None)
        (with_selectedProduceKey "banana" Sample.imageReady) = (Return tt, st') /\
    suggestedProduceKey (ui st') = Some "apple".
Proof.
  destruct (startAnalysis_blank_answer Sample.catalog Sample.encode
              (Sample.model (Responded (Some "  ")) CallRejected)
              (Sample.parses_to Sample.well_formed)
              (with_selectedProduceKey "banana" Sample.imageReady) None
              {| ui := with_selectedProduceKey "banana" Sample.imageReady; calls := [] |}
              Sample.photo Sample.banana Sample.apple [Sample.banana; Sample.tomato]
              "QUJD" "  " eq_refl eq_refl eq_refl eq_refl eq_refl eq_refl)
    as (_ & st' & E & Hs & _); try discriminate.
  exists st'. split; [exact E | exact Hs].
Defined.

(** X12: the suggested banana is confirmed and its diagnosis arrives. *)
Lemma handleSuggestion_result_witness :
  exists st',
    run (handleSuggestion Sample.catalog Sample.encode
           (Sample.model CallRejected (Responded (Some "(diagnosis)")))
           (Sample.parses_to Sample.well_formed) Sample.suggestionPending true)
        Sample.suggestionPending = (Return tt, st') /\
    prediction (ui st') = Some Sample.well_formed /\
    selectedProduceKey (ui st') = "banana" /\
    suggestedProduceKey (ui st') = None.
Proof.
  destruct (handleSuggestion_result Sample.catalog Sample.encode
              (Sample.model CallRejected (Responded (Some "(diagnosis)")))
              (Sample.parses_to Sample.well_formed) Sample.suggestionPending true
              Sample.photo "banana" Sample.banana Sample.apple "QUJD" "(diagnosis)"
              Sample.well_formed eq_refl eq_refl)
    as (st' & E & Hp & _ & Hk & Hs & _); try reflexivity; try discriminate.
  exists st'. repeat split; assumption.
Defined.

(** X13: with a result on display, the banana is selected instead of the
    apple. *)
Lemma handleProduceSelect_discards_witness :
  exists st',
    run (handleProduceSelect Sample.resultReady "banana") Sample.resultReady =
      (Return tt, st') /\
    imageFile (ui st') = None /\
    prediction (ui st') = None /\
    error (ui st') = None.
Proof.
  destruct (handleProduceSelect_discards Sample.resultReady "banana")
    as (st' & E & _ & _ & _ & Hother & _).
  destruct Hother as (Hi & _ & Hp & He & _); [discriminate|].
  exists st'. repeat split; assumption.
Defined.

(** X14: the tomato is selected while the search box holds a typed text. *)
Lemma select_then_searchText_witness :
  exists st',
    run (then_searchText_effect Sample.catalog (Sample.searching "tom")
           (handleProduceSelect (Sample.searching "tom") "tomato"))
        (Sample.searching "tom") = (Return tt, st') /\
    searchText (ui st') = "Tomato (Vegetable)".
Proof.
  destruct (select_then_searchText Sample.catalog (Sample.searching "tom") "tomato"
              Sample.tomato eq_refl)
    as (st' & E & _ & Hother & _).
  exists st'. split; [exact E|]. apply Hother. discriminate.
Defined.

(** X16: a press outside while the search box holds a typed text. *)
Lemma handleClickOutside_restores_witness :
  exists st',
    run (handleClickOutside Sample.catalog (Sample.searching "ban") true)
        (Sample.searching "ban") = (Return tt, st') /\
    filteredProduce Sample.catalog (ui st') = [] /\
    searchText (ui st') = "Apple".
Proof.
  destruct (handleClickOutside_restores Sample.catalog (Sample.searching "ban")
              Sample.apple eq_refl)
    as ((st' & E & Hf & Ht & _) & _).
  exists st'. repeat split; assumption.
Defined.

(** X19: the canvas hands over no blob. *)
Lemma handleCapture_failure_witness :
  exists st',
    run (handleCapture Sample.catalog Sample.encode
           (Sample.model (Responded (Some "Apple")) (Responded (Some "(diagnosis)")))
           (Sample.parses_to Sample.well_formed) Sample.browser_without_blob
           Sample.cameraOpen)
        Sample.cameraOpen = (Return tt, st') /\
    error (ui st') = Some "Failed to capture image: Could not create blob from canvas." /\
    isCameraOpen (ui st') = false /\
    calls st' = [].
Proof.
  destruct (proj2 (proj2 (handleCapture_failure Sample.catalog Sample.encode
              (Sample.model (Responded (Some "Apple")) (Responded (Some "(diagnosis)")))
              (Sample.parses_to Sample.well_formed) Sample.browser_without_blob
              Sample.cameraOpen {| ui := Sample.cameraOpen; calls := [] |}))
              eq_refl eq_refl eq_refl eq_refl)
    as (st' & E & He & Hc & _ & Hl).
  exists st'. repeat split; assumption.
Defined.

(** X20: a frame is captured over the old photo. *)
Lemma handleCapture_analyses_frame_witness :
  exists st' at_call later,
    run (handleCapture Sample.catalog Sample.encode
           (Sample.model (Responded (Some "Apple")) (Responded (Some "(diagnosis)")))
           (Sample.parses_to Sample.well_formed) Sample.browser Sample.cameraOpen)
        Sample.cameraOpen = (Return tt, st') /\
    imageFile (ui st') = Some Sample.frame /\
    isCameraOpen (ui st') = false /\
    calls st' =
      (at_call, IdentifyRequest "image/jpeg" "QUJD" "Apple, Banana, Tomato") :: later /\
    imageFile at_call = Some Sample.frame.
Proof.
  destruct (handleCapture_analyses_frame Sample.catalog Sample.encode
              (Sample.model (Responded (Some "Apple")) (Responded (Some "(diagnosis)")))
              (Sample.parses_to Sample.well_formed) Sample.browser Sample.cameraOpen
              {| ui := Sample.cameraOpen; calls := [] |} Sample.apple "QUJD"
              eq_refl eq_refl eq_refl eq_refl eq_refl eq_refl)
    as (st' & at_call & later & E & Hi & _ & Hc & _ & Hl & Ha & _).
  exists st', at_call, later. repeat split; assumption.
Defined.

(** X22: the use of the camera is denied. *)
Lemma enableStream_failure_witness :
  exists st',
    run (enableStream Sample.browser_camera_denied Sample.cameraOpen) Sample.cameraOpen =
      (Return tt, st') /\
    isCameraOpen (ui st') = false /\
    error (ui st') =
      Some "Could not access the camera. Please check browser permissions and ensure no other app is using it.".
Proof.
  destruct (proj1 (enableStream_failure Sample.browser_camera_denied Sample.cameraOpen)
              eq_refl eq_refl (or_introl eq_refl))
    as (st' & E & He & Hc & _).
  exists st'. repeat split; assumption.
Defined.

(** X23: apple is selected and the model answers Banana. *)
Lemma suggestion_blocks_analysis_witness :
  exists st',
    run (startAnalysis Sample.catalog Sample.encode
           (Sample.model (Responded (Some "Banana")) CallRejected)
           (Sample.parses_to Sample.well_formed) Sample.imageReady None)
        Sample.imageReady = (Return tt, st') /\
    suggestedProduce Sample.catalog (ui st') = Some Sample.banana /\
    analyze_disabled (ui st') = true /\
    clear_image_offered (ui st') = false.
Proof.
  destruct (suggestion_blocks_analysis Sample.catalog Sample.encode
              (Sample.model (Responded (Some "Banana")) CallRejected)
              (Sample.parses_to Sample.well_formed) Sample.imageReady None
              {| ui := Sample.imageReady; calls := [] |}
              Sample.photo Sample.apple Sample.banana "QUJD" "Banana"
              eq_refl eq_refl eq_refl eq_refl (or_intror (or_introl eq_refl)) eq_refl)
    as (st' & q' & E & Hs & _ & _ & Ha & Hc); try discriminate.
  exists st'. split; [exact E|]. split; [|split; assumption].
  unfold run in E. vm_compute in E. inversion E. reflexivity.
Defined.

(** X24, at 4.26. *)
Lemma toFixed1_nearest_tenth_witness :
  exists n,
    toFixed1 Sample.number_toString (426 # 100) =
      "" ++ decimal (n / 10) ++ "." ++ decimal (n mod 10) /\
    inject_Z n - (1 # 2) <= 10 * (426 # 100) /\
    10 * (426 # 100) < inject_Z n + (1 # 2).
Proof.
  destruct (toFixed1_nearest_tenth Sample.number_toString (426 # 100))
    as (n & E & _ & _ & Hlo & Hhi); [reflexivity|].
  exists n. split; [exact E|]. split; [exact Hlo | exact Hhi].
Defined.

(** X25, at a loss of a hundredth of a day. *)
Lemma getDaysText_edges_witness :
  getDaysText Sample.number_toString (-1 # 100) = "-0.0 days (Past Peak)".
Proof.
  apply (proj1 (getDaysText_edges Sample.number_toString (-1 # 100))); reflexivity.
Defined.

(** X26, at the data URL of a small JPEG. *)
Lemma fileToBase64_resolved_payload_witness :
  fileToBase64_resolved "data:image/jpeg;base64,QUJD" = Some "QUJD".
Proof.
  apply (proj1 (fileToBase64_resolved_payload "data:image/jpeg;base64" "QUJD" eq_refl)).
  reflexivity.
Defined.
